(* ===== verification/_CoqProject ===== *)
-Q . S2P
Prelude.v
CInt.v
Types.v
TimeValue.v
ThreadInfo.v
ThreadTime.v
Api.v
MachKernel.v
KernelRuns.v
Accounting.v
ResultApi.v
Interleaving.v
