(* ===== verification/Prelude.v ===== *)
(** * ThreadTime: a verification development of werediver/ParserCore's
      per-thread CPU clock ([src/Sources/ThreadTime])

    ** The program

    The C code is two files:
    - [include/thread_time.h] declares the value type [thread_time_t]
      (two [int64_t] fields, [user_time_us] and [system_time_us]) and the
      two operations;
    - [thread_time.c] defines
      - [time_value_to_us] (lines 6-8): a Mach [time_value_t]
        (seconds and microseconds, both [integer_t], i.e. 32-bit [int])
        to microseconds, [(int64_t)t.seconds * 1000000 + t.microseconds];
      - [thread_time] (lines 10-22): asks the Mach kernel for the calling
        thread's [THREAD_BASIC_INFO] through
        [thread_info(mach_thread_self(), ...)] and converts its user and
        system times, or returns the sentinel [{-1, -1}] when the call does
        not return [KERN_SUCCESS];
      - [thread_time_sub] (lines 24-28): field-wise difference.

    The program interacts with one other component, the operating system:
    [mach_thread_self] (which inserts a send right for the thread's kernel
    port into the task's IPC name space and returns its name) and
    [thread_info] (which reads the thread's CPU accounting into an
    out-parameter buffer and writes back the element count).

    ** The files, in dependency order

    - [Prelude] (this file): the [cprog] state-and-undefined-behaviour
      monad in which C functions that call the kernel are written, its
      notation in [cprog_scope], the [ctime] hint database, the [ctime_run]
      rewrite database and the tactics built on them.
    - [CInt]: C's signed integer arithmetic at the widths the code uses
      ([int]/[integer_t], [int64_t]). Values are [Z]; an arithmetic
      operation whose exact result is outside its type's range is undefined
      behaviour (C11 6.5p5) and yields [None]; a conversion to a signed type
      keeps a representable value.
    - [Types]: the data of the program and of the Mach interface it calls:
      [thread_time_t] (thread_time.h:6-9), Mach's [time_value_t],
      [kern_return_t], [thread_basic_info_data_t], flavors, counts and port
      names, with their typing predicates and decidable equalities.
    - [TimeValue]: [time_value_to_us] (thread_time.c:6-8) and the kernel's
      normal form of a [time_value_t]; absence of overflow on every
      [int32] input, exact value, range, order embedding, round trip with
      the kernel's microseconds-to-[time_value_t] conversion.
    - [ThreadInfo]: the interface the code needs from the OS (the spec's
      "provider of per-thread CPU time") as a class [ThreadInfoProvider]
      of two operations on an abstract kernel state, with its laws in
      [ThreadInfoLaws].
    - [ThreadTime]: [thread_time] (thread_time.c:10-22), over any provider,
      and [thread_time_sub] (thread_time.c:24-28); the theorems proved
      against the interface: no undefined behaviour, the success and the
      failure branches, the result is a valid sample or the sentinel, the
      subtraction's definedness and exact value on every pair of samples,
      and what the sentinel does to it; the refinement of [thread_time] by
      a [Result]-typed specification.
    - [Api]: the header's two prototypes (thread_time.h:11-12) as the
      class [thread_time_h], the contract a caller may rely on as the class
      [thread_time_contract], and the C functions as its instance,
      discharged from [ThreadInfoLaws].
    - [MachKernel]: a concrete model of the Mach kernel services the code
      calls (thread table with CPU accounting, the task's IPC name space
      with user-reference counts, [mach_thread_self], [thread_info]) and a
      step relation for what the kernel does between two calls (run a
      thread in user or system mode, create, terminate, switch threads);
      its invariant, preserved by every step and by both services; the
      instance of [ThreadInfoLaws].
    - [KernelRuns]: theorems about whole runs of the concrete kernel: a
      reachable kernel never makes [thread_time] fail; two samples taken by
      the same thread, with any kernel activity between them, give a
      non-negative difference (the spec's monotonicity); each call leaks one
      user reference of the thread's port (never deallocated) and touches
      nothing else; the arguments the code passes to [thread_info] are the
      ones the kernel accepts.
    - [Accounting]: runs as lists of labelled transitions; the executable
      step [kexec], sound and complete against the relation of
      [KernelRuns]; the time a run charges to a thread; the exact
      accounting of two samples, of a new thread's first sample, and the
      liveness of the measurement.
    - [ResultApi]: the sample the spec recommends instead of the sentinel
      ([thread_time_checked]), proved equivalent to the C sample followed
      by the sentinel check.
    - [Interleaving]: a sample by a given thread, and samples by two
      threads in either order.

    ** The theorems (claim ids C1..C21 of the manifest)

    - The sample, against the interface ([ThreadTime]): C1 refinement of
      the [Result]-typed specification (no undefined behaviour; the value is
      the accounting, the sentinel encodes exactly the failures); C2 the
      success branch computes [seconds * 1000000 + microseconds]; C3 the
      failure branch returns [{-1, -1}] whatever the stack held; C4 a result
      is valid exactly when the call succeeded; C17 without any kernel law,
      only C's typing of the buffer, no undefined behaviour on either
      branch, non-normalised times included.
    - The conversion ([TimeValue]): C5 no [int64_t] overflow on any pair
      of [int] fields; C11 range of a normal time value; C12 order
      embedding; C13 round trip with the kernel's conversion.
    - The difference ([ThreadTime]): C6 defined and exact on any two
      samples, in the code's operand order; C7 the sentinel vanishes in a
      difference.
    - Runs of the concrete kernel ([KernelRuns]): C8 no failure on a
      reachable kernel, the value is the running thread's account; C9
      monotonicity of two samples by one thread across any kernel
      activity; C10 one leaked port reference per call; C18 frame: the
      state after a call is the one [mach_thread_self] leaves, and no
      accounting and no other thread's port references change; C20 the
      port, flavor and count of lines 12-13 are accepted, and a smaller
      count or another flavor would be refused.
    - Accounting ([Accounting]): C14 the difference of two samples is
      exactly the time the kernel charged to the thread in between; C15
      every chargeable amount is observable (liveness); C19 a new thread's
      first sample is the time charged to it since its creation.
    - The recommended interface ([ResultApi]): C16 equivalence with the C
      sample through the sentinel check.
    - Interleavings ([Interleaving]): C21 samples by two threads commute.

    ** Bounds and fuel

    Nothing in the program loops or recurses, so no definition needs fuel
    and there is no termination property to state: every definition is
    structural, and that [thread_time] always returns is stated as the
    absence of undefined behaviour (C1, C17). The only
    bounds are the C types' ranges ([CInt]) and the kernel model's
    [ACCT_MAX] (below). [sample_n] and [kexec_list] iterate structurally
    on a count and on a list of labels.

    ** What the environment model assumes

    The Mach kernel is not code of the repository. Its model follows
    XNU's observable behaviour for the calls the code makes: a send right
    to a port already named in the space reuses that name and adds one user
    reference, saturating at [MACH_PORT_UREFS_MAX]; [thread_info] fails
    with [MACH_SEND_INVALID_DEST] on a name that is not a send right, with
    [KERN_TERMINATED] on a terminated thread, then with
    [KERN_INVALID_ARGUMENT] on an unknown flavor or a too-small count, and otherwise writes the accumulated times, normalised
    (microseconds below one million), and the count
    [THREAD_BASIC_INFO_COUNT]; it changes no state. The model bounds each thread's accumulated
    time by [ACCT_MAX], the largest time a [time_value_t] can hold (about
    68 years of CPU time); steps that would pass it are not taken.

    ** Not modelled

    The fields of [thread_basic_info] the code never reads (cpu usage,
    policy, run state, flags, suspend count, sleep time) are kept as data
    and written by the kernel model as zero; scheduling as such is a
    nondeterministic choice of steps; there is no concurrency inside one
    call because the code has no shared state.

    The lines of the C files the map does not cover are preprocessor
    lines ([#include], the header guard) and blank lines: they carry no
    behaviour to translate. The Mach headers they include are modelled in
    [Types] from their declarations.

    Concurrency inside one call is not modelled: the code has no shared
    state of its own, and the only shared resource, the task's name space,
    is updated by [mach_thread_self] atomically in the kernel; the
    interleaving of whole samples by several threads is [Interleaving]'s
    subject. With the code's three functions, every statement and branch
    of thread_time.c is modelled; nothing more of the program remains to
    translate.
*)

From Stdlib Require Export ZArith Lia.
From stdpp Require Export base option list gmap.

Declare Scope cprog_scope.
Delimit Scope cprog_scope with cprog.

(** ** The [cprog] monad

    A C function that calls the kernel is a state transformer on the
    kernel state [S] that may hit undefined behaviour ([None]). *)

Definition cprog (S A : Type) : Type := S -> option (S * A).

Definition cret {S A} (a : A) : cprog S A := fun s => Some (s, a).

Definition cbind {S A B} (m : cprog S A) (k : A -> cprog S B) : cprog S B :=
  fun s => match m s with
           | Some (s', a) => k a s'
           | None => None
           end.

(** A kernel call: total, it changes the kernel state and returns. *)
Definition ccall {S A} (f : S -> S * A) : cprog S A := fun s => Some (f s).

(** A pure C computation that may be undefined. *)
Definition cpure {S A} (o : option A) : cprog S A :=
  fun s => match o with
           | Some a => Some (s, a)
           | None => None
           end.

Notation "x <-- m ;; k" := (cbind m (fun x => k))
  (at level 60, m at next level, right associativity) : cprog_scope.

Create HintDb ctime discriminated.
Create Rewrite HintDb ctime_run.

Section CprogLaws.
Context {S A B : Type}.

Lemma cbind_cret (a : A) (k : A -> cprog S B) s :
  cbind (cret a) k s = k a s.
Proof. reflexivity. Qed.

Lemma cbind_ccall (f : S -> S * A) (k : A -> cprog S B) s :
  cbind (ccall f) k s = k (f s).2 (f s).1.
Proof. unfold cbind, ccall. by destruct (f s). Qed.

Lemma cbind_cpure_Some (a : A) (k : A -> cprog S B) s :
  cbind (cpure (Some a)) k s = k a s.
Proof. reflexivity. Qed.

Lemma cbind_cpure_None (k : A -> cprog S B) s :
  cbind (cpure None) k s = None.
Proof. reflexivity. Qed.

Lemma cbind_Some (m : cprog S A) (k : A -> cprog S B) s r :
  cbind m k s = Some r <-> exists s' a, m s = Some (s', a) /\ k a s' = Some r.
Proof.
  unfold cbind. split.
  - destruct (m s) as [[s' a]|]; [eauto | done].
  - intros (s' & a & -> & ?). done.
Qed.
End CprogLaws.

#[export] Hint Rewrite @cbind_cret @cbind_ccall @cbind_cpure_Some
  @cbind_cpure_None : ctime_run.

(** [ctime_simpl] runs the program: it rewrites the monad's laws and
    reduces what is left. *)
Ltac ctime_simpl := autorewrite with ctime_run in *; simpl in *.

(** ** Boolean checks over finite maps

    An invariant over a [gmap] is checked by [forallb] over its bindings,
    so that it computes; this lemma turns the check into the statement
    about lookups that proofs use. *)
Lemma forallb_map_to_list_iff `{Countable K} {A} (f : K -> A -> bool) (m : gmap K A) :
  forallb (fun kv => f kv.1 kv.2) (map_to_list m) = true <->
  (forall k a, m !! k = Some a -> f k a = true).
Proof.
  rewrite forallb_forall. split.
  - intros Hf k a Hk. apply (Hf (k, a)), list_elem_of_In, elem_of_map_to_list. done.
  - intros Hf [k a] Hin. apply Hf, elem_of_map_to_list, list_elem_of_In. done.
Qed.
