(* ===== verification/CInt.v ===== *)
(** C's signed integer types at the widths the code uses, and their
    arithmetic. A value is a [Z]; an operation whose mathematical result
    does not fit the type is undefined behaviour (C11 6.5p5), modelled as
    [None]; a conversion to a signed type keeps every representable value
    (C11 6.3.1.3p1). *)

From S2P Require Import Prelude.

Module CInt.

(** [I32] is [int] (Mach's [integer_t]); [I64] is [int64_t]. *)
Inductive ity := I32 | I64.

#[export] Instance ity_eq_dec : EqDecision ity.
Proof. solve_decision. Defined.

Definition bits (t : ity) : Z :=
  match t with I32 => 32 | I64 => 64 end%Z.

Definition min_of (t : ity) : Z := (- 2 ^ (bits t - 1))%Z.
Definition max_of (t : ity) : Z := (2 ^ (bits t - 1) - 1)%Z.

Definition INT32_MIN : Z := min_of I32.
Definition INT32_MAX : Z := max_of I32.
Definition INT64_MIN : Z := min_of I64.
Definition INT64_MAX : Z := max_of I64.

Definition in_range (t : ity) (z : Z) : bool :=
  (min_of t <=? z)%Z && (z <=? max_of t)%Z.

(** The result of a signed operation whose exact value is [z]. *)
Definition arith (t : ity) (z : Z) : option Z :=
  if in_range t z then Some z else None.

Definition add (t : ity) (x y : Z) : option Z := arith t (x + y).
Definition sub (t : ity) (x y : Z) : option Z := arith t (x - y).
Definition mul (t : ity) (x y : Z) : option Z := arith t (x * y).

(** Conversion to a signed type: the value when it is representable;
    otherwise implementation-defined, and clang reduces modulo
    [2 ^ bits]. *)
Definition conv (t : ity) (z : Z) : Z :=
  if in_range t z then z
  else ((z - min_of t) mod 2 ^ bits t + min_of t)%Z.

Lemma in_range_spec t z :
  in_range t z = true <-> (min_of t <= z <= max_of t)%Z.
Proof. unfold in_range. rewrite andb_true_iff, !Z.leb_le. done. Qed.

Lemma in_range_false t z :
  in_range t z = false <-> (z < min_of t \/ max_of t < z)%Z.
Proof.
  rewrite <- not_true_iff_false, in_range_spec. lia.
Qed.

Lemma arith_Some t z r : arith t z = Some r <-> r = z /\ in_range t z = true.
Proof. unfold arith. destruct (in_range t z); naive_solver. Qed.

Lemma arith_in t z : (min_of t <= z <= max_of t)%Z -> arith t z = Some z.
Proof. intros H. unfold arith. by rewrite (proj2 (in_range_spec t z) H). Qed.

Lemma arith_out t z : (z < min_of t \/ max_of t < z)%Z -> arith t z = None.
Proof. intros H. unfold arith. by rewrite (proj2 (in_range_false t z) H). Qed.

Lemma conv_in t z : (min_of t <= z <= max_of t)%Z -> conv t z = z.
Proof. intros H. unfold conv. by rewrite (proj2 (in_range_spec t z) H). Qed.

(** The bounds as numbers, for [lia]. *)
Lemma I32_bounds : min_of I32 = (-2147483648)%Z /\ max_of I32 = 2147483647%Z.
Proof. split; reflexivity. Qed.

Lemma I64_bounds :
  min_of I64 = (-9223372036854775808)%Z /\ max_of I64 = 9223372036854775807%Z.
Proof. split; reflexivity. Qed.

(** Every [int] value is an [int64_t] value. *)
Lemma I32_in_I64 z :
  (min_of I32 <= z <= max_of I32)%Z -> (min_of I64 <= z <= max_of I64)%Z.
Proof. rewrite (proj1 I32_bounds), (proj2 I32_bounds), (proj1 I64_bounds), (proj2 I64_bounds). lia. Qed.

End CInt.

#[export] Hint Resolve CInt.arith_in CInt.conv_in CInt.I32_in_I64 : ctime.

(** [cint_bounds] replaces the symbolic bounds by numbers, so that [lia]
    can use them. *)
Ltac cint_bounds :=
  unfold CInt.INT32_MIN, CInt.INT32_MAX, CInt.INT64_MIN, CInt.INT64_MAX in *;
  rewrite ?(proj1 CInt.I32_bounds), ?(proj2 CInt.I32_bounds),
    ?(proj1 CInt.I64_bounds), ?(proj2 CInt.I64_bounds) in *.
