(* ===== verification/Types.v ===== *)
(** The data of the program and of the Mach interface it calls.

    [thread_time_t] is the repository's own type
    (include/thread_time.h:6-9). The Mach types are those of
    <mach/time_value.h>, <mach/kern_return.h>, <mach/thread_info.h> and
    <mach/port.h>, which thread_time.c includes: integers stay [Z] with a
    typing predicate saying which C type's range they live in, and
    constants keep their header names and values. *)

From S2P Require Import Prelude CInt.

Module Types.
Import CInt.
Local Open Scope Z_scope.

(** ** The repository's value type *)

Record thread_time_t := mk_thread_time {
  user_time_us : Z;    (** [int64_t] *)
  system_time_us : Z   (** [int64_t] *)
}.

#[export] Instance thread_time_eq_dec : EqDecision thread_time_t.
Proof. solve_decision. Defined.

(** Both fields are [int64_t] values. *)
Definition thread_time_typed (t : thread_time_t) : bool :=
  in_range I64 (user_time_us t) && in_range I64 (system_time_us t).

(** A sample the spec calls valid: both fields non-negative. *)
Definition thread_time_valid (t : thread_time_t) : bool :=
  (0 <=? user_time_us t)%Z && (0 <=? system_time_us t)%Z.

(** ** Mach's [time_value_t] (<mach/time_value.h>) *)

Record time_value_t := mk_time_value {
  seconds : Z;       (** [integer_t] *)
  microseconds : Z   (** [integer_t] *)
}.

#[export] Instance time_value_eq_dec : EqDecision time_value_t.
Proof. solve_decision. Defined.

Definition USEC_PER_SEC : Z := 1000000.

Definition time_value_typed (t : time_value_t) : bool :=
  in_range I32 (seconds t) && in_range I32 (microseconds t).

(** The kernel's normal form: [0 <= microseconds < USEC_PER_SEC] and
    non-negative seconds. *)
Definition time_value_normal (t : time_value_t) : bool :=
  (0 <=? seconds t)%Z && (seconds t <=? max_of I32)%Z &&
  (0 <=? microseconds t)%Z && (microseconds t <? USEC_PER_SEC)%Z.

(** ** Return codes (<mach/kern_return.h>, <mach/message.h>)

    [kern_return_t] is an [int]; the code compares it with
    [KERN_SUCCESS] only. *)

Definition kern_return_t := Z.
Definition KERN_SUCCESS : kern_return_t := 0.
Definition KERN_INVALID_ARGUMENT : kern_return_t := 4.
Definition KERN_TERMINATED : kern_return_t := 37.
Definition MACH_SEND_INVALID_DEST : kern_return_t := 268435459. (** 0x10000003 *)

(** ** Ports, flavors and counts ([natural_t] values) *)

Definition mach_port_t := Z.
Definition MACH_PORT_NULL : mach_port_t := 0.
Definition thread_flavor_t := Z.
Definition THREAD_BASIC_INFO : thread_flavor_t := 3.
Definition mach_msg_type_number_t := Z.

(** ** [thread_basic_info_data_t] (<mach/thread_info.h>) *)

Record thread_basic_info_t := mk_basic_info {
  user_time : time_value_t;
  system_time : time_value_t;
  cpu_usage : Z;
  policy : Z;
  run_state : Z;
  flags : Z;
  suspend_count : Z;
  sleep_time : Z
}.

#[export] Instance thread_basic_info_eq_dec : EqDecision thread_basic_info_t.
Proof. solve_decision. Defined.

(** [sizeof(thread_basic_info_data_t) / sizeof(natural_t)]: two
    [time_value_t] of two words and six one-word fields. *)
Definition THREAD_BASIC_INFO_COUNT : mach_msg_type_number_t := 10.

Definition basic_info_typed (b : thread_basic_info_t) : bool :=
  time_value_typed (user_time b) && time_value_typed (system_time b) &&
  in_range I32 (cpu_usage b) && in_range I32 (policy b) &&
  in_range I32 (run_state b) && in_range I32 (flags b) &&
  in_range I32 (suspend_count b) && in_range I32 (sleep_time b).

(** The times a successful [thread_info] reports. *)
Definition basic_info_normal (b : thread_basic_info_t) : bool :=
  time_value_normal (user_time b) && time_value_normal (system_time b).

(** ** Facts on the predicates *)

Lemma time_value_typed_spec t :
  time_value_typed t = true <->
  (min_of I32 <= seconds t <= max_of I32 /\
   min_of I32 <= microseconds t <= max_of I32)%Z.
Proof. unfold time_value_typed. by rewrite andb_true_iff, !in_range_spec. Qed.

Lemma time_value_normal_spec t :
  time_value_normal t = true <->
  (0 <= seconds t <= max_of I32 /\ 0 <= microseconds t < USEC_PER_SEC)%Z.
Proof.
  unfold time_value_normal. rewrite !andb_true_iff, !Z.leb_le, Z.ltb_lt. tauto.
Qed.

(** A normal time value is a typed one. *)
Lemma time_value_normal_typed t :
  time_value_normal t = true -> time_value_typed t = true.
Proof.
  rewrite time_value_normal_spec, time_value_typed_spec.
  unfold USEC_PER_SEC. cint_bounds. lia.
Qed.

Lemma thread_time_valid_spec t :
  thread_time_valid t = true <-> (0 <= user_time_us t /\ 0 <= system_time_us t)%Z.
Proof. unfold thread_time_valid. by rewrite andb_true_iff, !Z.leb_le. Qed.

Lemma thread_time_typed_spec t :
  thread_time_typed t = true <->
  (min_of I64 <= user_time_us t <= max_of I64 /\
   min_of I64 <= system_time_us t <= max_of I64)%Z.
Proof. unfold thread_time_typed. by rewrite andb_true_iff, !in_range_spec. Qed.

Lemma basic_info_normal_typed_times b :
  basic_info_normal b = true ->
  time_value_normal (user_time b) = true /\ time_value_normal (system_time b) = true.
Proof. unfold basic_info_normal. by rewrite andb_true_iff. Qed.

End Types.

#[export] Hint Resolve Types.time_value_normal_typed : ctime.
