(* ===== verification/TimeValue.v ===== *)
(** [time_value_to_us] (src/Sources/ThreadTime/thread_time.c:6-8) and the
    kernel's microseconds-to-[time_value_t] conversion it undoes.

    [(int64_t)t.seconds * 1000000 + t.microseconds]: the cast converts the
    [int] seconds to [int64_t], the constant and the microseconds are
    converted to [int64_t] by the usual arithmetic conversions, and the
    product and the sum are [int64_t] operations, each undefined on
    overflow. *)

From S2P Require Import Prelude CInt Types.
Import CInt Types.

Local Open Scope Z_scope.

Definition time_value_to_us (t : time_value_t) : option Z :=
  p ← CInt.mul I64 (CInt.conv I64 (seconds t)) (CInt.conv I64 1000000);
  CInt.add I64 p (CInt.conv I64 (microseconds t)).

(** The kernel side (not code of the repository): a count of
    microseconds in the normal form [thread_info] reports, and the largest
    count a [time_value_t] can hold. *)
Definition time_value_of_us (us : Z) : time_value_t :=
  {| seconds := us / USEC_PER_SEC; microseconds := us mod USEC_PER_SEC |}.

Definition ACCT_MAX : Z := max_of I32 * USEC_PER_SEC + (USEC_PER_SEC - 1).

(** The lexicographic order of (seconds, microseconds). *)
Definition time_value_le (a b : time_value_t) : bool :=
  (seconds a <? seconds b) ||
  ((seconds a =? seconds b) && (microseconds a <=? microseconds b)).

(** The microseconds a time value denotes, in mathematical integers. *)
Definition tv_total (t : time_value_t) : Z :=
  seconds t * USEC_PER_SEC + microseconds t.

Lemma ACCT_MAX_value : ACCT_MAX = 2147483647999999.
Proof. reflexivity. Qed.

Lemma ACCT_MAX_lt_INT64_MAX : ACCT_MAX < max_of I64.
Proof. reflexivity. Qed.

(** The arithmetic never leaves [int64_t] when both fields are [int]:
    [|seconds * 10^6 + microseconds| <= 2^31 * 10^6 + 2^31 < 2^63]. *)
Lemma tv_total_I64 t :
  time_value_typed t = true -> min_of I64 <= tv_total t <= max_of I64.
Proof.
  rewrite time_value_typed_spec. unfold tv_total, USEC_PER_SEC. cint_bounds. lia.
Qed.

Lemma tv_total_normal_range t :
  time_value_normal t = true -> 0 <= tv_total t <= ACCT_MAX.
Proof.
  rewrite time_value_normal_spec. unfold tv_total, ACCT_MAX, USEC_PER_SEC.
  cint_bounds. lia.
Qed.

Lemma time_value_to_us_typed t :
  time_value_typed t = true -> time_value_to_us t = Some (tv_total t).
Proof.
  intros Ht. pose proof (tv_total_I64 t Ht) as Hr.
  apply time_value_typed_spec in Ht as [Hs Hu].
  unfold time_value_to_us, tv_total, USEC_PER_SEC, CInt.mul, CInt.add in *.
  rewrite !conv_in by (cint_bounds; lia).
  rewrite (arith_in I64 (seconds t * 1000000)) by (cint_bounds; lia).
  simpl. apply arith_in. done.
Qed.

#[export] Hint Resolve time_value_to_us_typed tv_total_normal_range : ctime.

(** ** Properties of the conversion *)

(** (C5) [time_value_to_us] never overflows: on every pair of [int]
    fields it returns [seconds * 1000000 + microseconds] exactly. *)
Theorem time_value_to_us_no_overflow s us :
  in_range I32 s = true -> in_range I32 us = true ->
  time_value_to_us (mk_time_value s us) = Some (s * 1000000 + us).
Proof.
  intros Hs Hus. apply time_value_to_us_typed.
  unfold time_value_typed. simpl. by rewrite Hs, Hus.
Qed.

Lemma time_value_to_us_no_overflow_witness :
  in_range I32 (max_of I32) = true /\ in_range I32 (min_of I32) = true /\
  time_value_to_us (mk_time_value (max_of I32) (min_of I32)) =
    Some (max_of I32 * 1000000 + min_of I32).
Proof.
  split; [reflexivity | split; [reflexivity |]].
  apply time_value_to_us_no_overflow; reflexivity.
Defined.

(** Division and remainder by [USEC_PER_SEC] rebuild a count. *)
Lemma tv_total_of_us us : tv_total (time_value_of_us us) = us.
Proof.
  unfold tv_total, time_value_of_us, USEC_PER_SEC. simpl.
  pose proof (Z.div_mod us 1000000). lia.
Qed.

Lemma time_value_of_us_normal us :
  0 <= us <= ACCT_MAX -> time_value_normal (time_value_of_us us) = true.
Proof.
  intros H. apply time_value_normal_spec. unfold time_value_of_us, ACCT_MAX, USEC_PER_SEC in *.
  simpl. cint_bounds. split.
  - assert (us / 1000000 < 2147483648) by (apply Z.div_lt_upper_bound; lia).
    split; [apply Z.div_pos |]; lia.
  - apply Z.mod_pos_bound. lia.
Qed.

Lemma time_value_of_us_total t :
  time_value_normal t = true -> time_value_of_us (tv_total t) = t.
Proof.
  rewrite time_value_normal_spec. intros [Hs Hu]. destruct t as [s u].
  unfold time_value_of_us, tv_total, USEC_PER_SEC in *. simpl in *.
  f_equal.
  - rewrite Z.div_add_l by lia. rewrite Z.div_small by lia. lia.
  - rewrite Z.add_comm, Z.mod_add by lia. apply Z.mod_small. lia.
Qed.

Lemma time_value_to_us_of_us us :
  0 <= us <= ACCT_MAX -> time_value_to_us (time_value_of_us us) = Some us.
Proof.
  intros Hus. rewrite time_value_to_us_typed by auto using time_value_of_us_normal with ctime.
  by rewrite tv_total_of_us.
Qed.

#[export] Hint Resolve time_value_of_us_normal : ctime.
#[export] Hint Rewrite tv_total_of_us : ctime_run.

(** (C11) On a normal time value, the conversion is defined and lands in
    [[0, ACCT_MAX]], far below [INT64_MAX]: a successful sample is never
    negative and never the sentinel. *)
Theorem time_value_to_us_range t :
  time_value_normal t = true ->
  exists r, time_value_to_us t = Some r /\ 0 <= r <= ACCT_MAX.
Proof.
  intros Ht. exists (tv_total t). split; auto with ctime.
Qed.

Lemma time_value_to_us_range_witness :
  time_value_normal (mk_time_value 12 999999) = true /\
  exists r, time_value_to_us (mk_time_value 12 999999) = Some r /\ 0 <= r <= ACCT_MAX.
Proof.
  split; [reflexivity |]. apply time_value_to_us_range. reflexivity.
Defined.

(** (C12) On normal time values the conversion is an order embedding:
    the lexicographic order of (seconds, microseconds) is the order of the
    microsecond counts. *)
Theorem time_value_to_us_monotone a b ra rb :
  time_value_normal a = true -> time_value_normal b = true ->
  time_value_to_us a = Some ra -> time_value_to_us b = Some rb ->
  (time_value_le a b = true <-> ra <= rb).
Proof.
  intros Ha Hb Hra Hrb.
  rewrite time_value_to_us_typed in Hra, Hrb by auto with ctime.
  injection Hra as <-. injection Hrb as <-.
  apply time_value_normal_spec in Ha, Hb.
  unfold time_value_le, tv_total, USEC_PER_SEC in *.
  rewrite orb_true_iff, andb_true_iff, Z.ltb_lt, Z.eqb_eq, Z.leb_le. nia.
Qed.

Lemma time_value_to_us_monotone_witness :
  time_value_le (mk_time_value 1 999999) (mk_time_value 2 0) = true /\
  1999999 <= 2000000.
Proof.
  split; [| lia].
  apply (time_value_to_us_monotone (mk_time_value 1 999999) (mk_time_value 2 0)
           1999999 2000000); reflexivity || lia.
Defined.

(** (C13) Round trip with the kernel's conversion: every count up to
    [ACCT_MAX] survives [time_value_of_us] then [time_value_to_us], and
    every normal time value survives the converse. *)
Theorem time_value_us_roundtrip us t :
  0 <= us <= ACCT_MAX -> time_value_normal t = true ->
  time_value_to_us (time_value_of_us us) = Some us /\
  (forall r, time_value_to_us t = Some r -> time_value_of_us r = t).
Proof.
  intros Hus Ht. split.
  - by apply time_value_to_us_of_us.
  - intros r Hr. rewrite time_value_to_us_typed in Hr by auto with ctime.
    injection Hr as <-. by apply time_value_of_us_total.
Qed.

Lemma time_value_us_roundtrip_witness :
  time_value_to_us (time_value_of_us 3500001) = Some 3500001 /\
  (forall r, time_value_to_us (mk_time_value 3 500001) = Some r ->
        time_value_of_us r = mk_time_value 3 500001).
Proof.
  apply (time_value_us_roundtrip 3500001 (mk_time_value 3 500001));
    [rewrite ACCT_MAX_value; lia | reflexivity].
Defined.
