(* ===== verification/ThreadInfo.v ===== *)
(** The interface thread_time.c needs from the operating system: the
    spec's "provider of per-thread CPU time" (spec.md section 9). It is
    the class [ThreadInfoProvider] of the two Mach calls the code makes, on
    an abstract kernel state [S], together with a ghost observation
    [thread_cpu_time] (the calling thread's accumulated user and system
    microseconds as the kernel keeps them, or [None] when the kernel cannot
    report them). [ThreadInfoLaws] is what the kernel promises about them on the
    states that satisfy its invariant;
    [ThreadTime] is proved against these laws and [MachKernel] discharges
    them for a concrete kernel. *)

From S2P Require Import Prelude CInt Types TimeValue.
Import Types.

Local Open Scope Z_scope.

Class ThreadInfoProvider (S : Type) := {
  (** [mach_thread_self()]: a send right to the calling thread's port,
      inserted into the task's name space. *)
  mach_thread_self : S -> S * mach_port_t;
  (** [thread_info(port, flavor, buffer, &count)]: the return code, the
      buffer after the call, and the count written back. *)
  thread_info : mach_port_t -> thread_flavor_t -> thread_basic_info_t ->
                mach_msg_type_number_t -> S ->
                S * (kern_return_t * thread_basic_info_t * mach_msg_type_number_t);
  (** Ghost: the calling thread's accumulated (user, system) time. *)
  thread_cpu_time : S -> option (Z * Z)
}.

Arguments mach_thread_self {S _} _.
Arguments thread_info {S _} _ _ _ _ _.
Arguments thread_cpu_time {S _} _.

(** The query thread_time.c:13 makes: [thread_info] on the port
    [mach_thread_self] returns, for [THREAD_BASIC_INFO] with
    [count = THREAD_BASIC_INFO_COUNT]. *)
Definition self_basic_info {S} `{ThreadInfoProvider S}
    (buf : thread_basic_info_t) (s : S) :
    S * (kern_return_t * thread_basic_info_t * mach_msg_type_number_t) :=
  let (s1, port) := mach_thread_self s in
  thread_info port THREAD_BASIC_INFO buf THREAD_BASIC_INFO_COUNT s1.

(** What the kernel promises, on the states that satisfy its invariant
    [kinv]: the accounting is a count of microseconds a [time_value_t] can
    hold; a thread asking for its own basic info gets [KERN_SUCCESS] with
    its accounting in normal form exactly when the kernel has it; and the
    query keeps the invariant. *)
Class ThreadInfoLaws (S : Type) `{ThreadInfoProvider S} (kinv : S -> Prop) : Prop := {
  thread_cpu_time_bounds : forall s u st, kinv s ->
    thread_cpu_time s = Some (u, st) -> 0 <= u <= ACCT_MAX /\ 0 <= st <= ACCT_MAX;
  self_basic_info_spec : forall s buf, kinv s ->
    match thread_cpu_time s with
    | Some (u, st) =>
        (self_basic_info buf s).2.1.1 = KERN_SUCCESS /\
        user_time (self_basic_info buf s).2.1.2 = time_value_of_us u /\
        system_time (self_basic_info buf s).2.1.2 = time_value_of_us st
    | None => (self_basic_info buf s).2.1.1 <> KERN_SUCCESS
    end;
  self_basic_info_kinv : forall s buf, kinv s -> kinv (self_basic_info buf s).1
}.

Section LawFacts.
Context {S : Type} {kinv : S -> Prop} `{ThreadInfoLaws S kinv}.

(** On success, the buffer the code reads holds normal times. *)
Lemma self_basic_info_success_normal s buf : kinv s ->
  (self_basic_info buf s).2.1.1 = KERN_SUCCESS ->
  exists u st, thread_cpu_time s = Some (u, st) /\
    user_time (self_basic_info buf s).2.1.2 = time_value_of_us u /\
    system_time (self_basic_info buf s).2.1.2 = time_value_of_us st /\
    0 <= u <= ACCT_MAX /\ 0 <= st <= ACCT_MAX.
Proof.
  intros Hi Hk. pose proof (self_basic_info_spec s buf Hi) as Hs.
  destruct (thread_cpu_time s) as [[u st]|] eqn:Hc; [| done].
  destruct Hs as (_ & Hu & Hst). apply thread_cpu_time_bounds in Hc as Hb; [| done].
  exists u, st. tauto.
Qed.

Lemma self_basic_info_failure s buf : kinv s ->
  (self_basic_info buf s).2.1.1 <> KERN_SUCCESS -> thread_cpu_time s = None.
Proof.
  intros Hi Hk. pose proof (self_basic_info_spec s buf Hi) as Hs.
  destruct (thread_cpu_time s) as [[u st]|]; [| done]. by destruct Hs.
Qed.
End LawFacts.
