(* ===== verification/ThreadTime.v ===== *)
(** [thread_time] (src/Sources/ThreadTime/thread_time.c:10-22) over any
    [ThreadInfoProvider], and [thread_time_sub] (thread_time.c:24-28),
    with the theorems proved against [ThreadInfoLaws]. *)

From S2P Require Import Prelude CInt Types TimeValue ThreadInfo.
Import CInt Types.

Local Open Scope Z_scope.
Local Open Scope cprog_scope.

Section Sample.
Context {S : Type} `{ThreadInfoProvider S}.

(** [basic_info] is the uninitialised local of line 11: its contents
    are whatever the stack held, so the model takes them as an argument.
    Line 13 runs [mach_thread_self()] then [thread_info]; the compound
    literals of lines 15-18 and 20 are the two results. *)
Definition thread_time (basic_info : thread_basic_info_t) : cprog S thread_time_t :=
  self <-- ccall mach_thread_self ;;
  r <-- ccall (thread_info self THREAD_BASIC_INFO basic_info THREAD_BASIC_INFO_COUNT) ;;
  let '(result, basic_info, count) := r in
  if (result =? KERN_SUCCESS)%Z then
    u <-- cpure (time_value_to_us (user_time basic_info)) ;;
    st <-- cpure (time_value_to_us (system_time basic_info)) ;;
    cret (mk_thread_time u st)
  else cret (mk_thread_time (-1) (-1)).
End Sample.

(** Lines 24-28: two [int64_t] subtractions, each undefined on
    overflow. *)
Definition thread_time_sub (a b : thread_time_t) : option thread_time_t :=
  u ← CInt.sub I64 (user_time_us a) (user_time_us b);
  st ← CInt.sub I64 (system_time_us a) (system_time_us b);
  Some (mk_thread_time u st).

(** The failure value of line 20. *)
Definition thread_time_sentinel : thread_time_t := mk_thread_time (-1) (-1).

(** ** The [Result]-typed specification (spec.md sections 4.1 and 9)

    A sample is the calling thread's accounting, or a failure. The C
    interface encodes the failure in band as the sentinel. *)
Definition sample_encode (o : option (Z * Z)) : thread_time_t :=
  match o with
  | Some (u, st) => mk_thread_time u st
  | None => thread_time_sentinel
  end.

Definition sample_decode (t : thread_time_t) : option (Z * Z) :=
  if thread_time_valid t then Some (user_time_us t, system_time_us t) else None.

(** A sample the code can return: a valid one within [ACCT_MAX], or the
    sentinel. *)
Definition sample_shape (t : thread_time_t) : Prop :=
  (0 <= user_time_us t <= ACCT_MAX /\ 0 <= system_time_us t <= ACCT_MAX) \/
  t = thread_time_sentinel.

(** ** Running [thread_time] *)

Section SampleRun.
Context {S : Type} `{ThreadInfoProvider S}.

(** The program, run: the kernel query, then the branch on its return
    code. *)
Lemma thread_time_unfold buf s :
  thread_time buf s =
  let '(s2, (kr, b, _)) := self_basic_info buf s in
  if (kr =? KERN_SUCCESS)%Z then
    match time_value_to_us (user_time b), time_value_to_us (system_time b) with
    | Some u, Some st => Some (s2, mk_thread_time u st)
    | _, _ => None
    end
  else Some (s2, thread_time_sentinel).
Proof.
  unfold thread_time, self_basic_info. ctime_simpl.
  destruct (mach_thread_self s) as [s1 p]. simpl.
  destruct (thread_info _ _ _ _ _) as [s2 [[kr b] c]]. simpl.
  destruct (kr =? KERN_SUCCESS)%Z; [| done].
  destruct (time_value_to_us (user_time b)); [| done]. ctime_simpl.
  by destruct (time_value_to_us (system_time b)).
Qed.

Context {kinv : S -> Prop} `{!ThreadInfoLaws S kinv}.

(** Against the laws, the run is the encoded accounting. *)
Lemma thread_time_encode buf s : kinv s ->
  thread_time buf s =
  Some ((self_basic_info buf s).1, sample_encode (thread_cpu_time s)).
Proof.
  intros Hi. rewrite thread_time_unfold.
  destruct (self_basic_info buf s) as [s2 [[kr b] c]] eqn:Hq. simpl.
  destruct (Z.eqb_spec kr KERN_SUCCESS) as [Hk | Hk].
  - pose proof (self_basic_info_success_normal s buf Hi) as Hn.
    rewrite Hq in Hn. simpl in Hn.
    destruct (Hn Hk) as (u & st & -> & -> & -> & Hu & Hst).
    by rewrite !time_value_to_us_of_us.
  - pose proof (self_basic_info_failure s buf Hi) as Hf.
    rewrite Hq in Hf. by rewrite Hf.
Qed.
End SampleRun.

(** ** Running [thread_time_sub] *)

Lemma thread_time_sub_Some a b d :
  thread_time_sub a b = Some d <->
  d = mk_thread_time (user_time_us a - user_time_us b) (system_time_us a - system_time_us b) /\
  in_range I64 (user_time_us a - user_time_us b) = true /\
  in_range I64 (system_time_us a - system_time_us b) = true.
Proof.
  unfold thread_time_sub, CInt.sub. rewrite bind_Some. setoid_rewrite bind_Some.
  setoid_rewrite arith_Some. naive_solver.
Qed.

Lemma thread_time_sub_in a b :
  min_of I64 <= user_time_us a - user_time_us b <= max_of I64 ->
  min_of I64 <= system_time_us a - system_time_us b <= max_of I64 ->
  thread_time_sub a b =
    Some (mk_thread_time (user_time_us a - user_time_us b)
                         (system_time_us a - system_time_us b)).
Proof.
  intros Hu Hs. apply thread_time_sub_Some. rewrite !in_range_spec. done.
Qed.

Lemma sample_encode_shape S kinv `{ThreadInfoLaws S kinv} s : kinv s ->
  sample_shape (sample_encode (thread_cpu_time s)).
Proof.
  intros Hi. unfold sample_shape. destruct (thread_cpu_time s) as [[u st]|] eqn:Hc; [| by right].
  left. by apply thread_cpu_time_bounds in Hc.
Qed.

(** Differences of two such samples stay far inside [int64_t]. *)
Lemma sample_shape_sub a b :
  sample_shape a -> sample_shape b ->
  thread_time_sub a b =
    Some (mk_thread_time (user_time_us a - user_time_us b)
                         (system_time_us a - system_time_us b)).
Proof.
  unfold sample_shape, thread_time_sentinel.
  pose proof ACCT_MAX_value. cint_bounds.
  intros [Ha | ->] [Hb | ->]; apply thread_time_sub_in; simpl; cint_bounds; lia.
Qed.

(** ** Properties of [thread_time] *)

Section SampleProperties.
Context {S : Type} `{ThreadInfoProvider S}.

(** (C3) The failure branch (lines 19-20): when [thread_info] does not
    return [KERN_SUCCESS], [thread_time] returns [{-1, -1}], whatever the
    uninitialised buffer held and whatever the kernel wrote into it. *)
Theorem thread_time_failure buf s s2 kr b c :
  self_basic_info buf s = (s2, (kr, b, c)) -> kr <> KERN_SUCCESS ->
  thread_time buf s = Some (s2, mk_thread_time (-1) (-1)).
Proof.
  intros Hq Hk. rewrite thread_time_unfold, Hq.
  by rewrite (proj2 (Z.eqb_neq kr KERN_SUCCESS) Hk).
Qed.

(** (C17) Robustness against any kernel: with no law about the provider,
    only that the buffer the call leaves holds C [int]s (as it does in C,
    whatever the kernel wrote), [thread_time] never reaches undefined
    behaviour. On success it returns [seconds * 1000000 + microseconds] of
    each time even when the kernel's values are not normalised (negative
    or with a million microseconds or more); on failure the sentinel. *)
Theorem thread_time_typed_buffer_defined buf s s2 kr b c :
  self_basic_info buf s = (s2, (kr, b, c)) ->
  time_value_typed (user_time b) = true -> time_value_typed (system_time b) = true ->
  thread_time buf s =
    Some (s2, if (kr =? KERN_SUCCESS)%Z
              then mk_thread_time (tv_total (user_time b)) (tv_total (system_time b))
              else thread_time_sentinel).
Proof.
  intros Hq Hu Hs. rewrite thread_time_unfold, Hq.
  destruct (kr =? KERN_SUCCESS)%Z; [| done].
  by rewrite !time_value_to_us_typed.
Qed.

Context {kinv : S -> Prop} `{!ThreadInfoLaws S kinv}.

(** (C1) Refinement: [thread_time] never reaches undefined behaviour and
    implements the [Result]-typed specification of a sample. The value it
    returns is the calling thread's accounting encoded with the sentinel
    for a failure, and decoding it gives the accounting back, so the
    sentinel encoding loses nothing on the values the code returns. *)
Theorem thread_time_refines buf s : kinv s ->
  exists s' t, thread_time buf s = Some (s', t) /\
    t = sample_encode (thread_cpu_time s) /\
    sample_decode t = thread_cpu_time s.
Proof.
  intros Hi. rewrite thread_time_encode by done. do 2 eexists. split; [done | split; [done |]].
  unfold sample_decode, thread_time_valid.
  destruct (thread_cpu_time s) as [[u st]|] eqn:Hc; [| done].
  apply thread_cpu_time_bounds in Hc as [Hu Hst]; [| done]. simpl.
  by rewrite (proj2 (Z.leb_le 0 u)), (proj2 (Z.leb_le 0 st)) by lia.
Qed.

(** (C2) The success branch (lines 14-18): the fields are
    [seconds * 1000000 + microseconds] of the user and system times the
    kernel wrote, computed without overflow. *)
Theorem thread_time_success buf s s2 b c : kinv s ->
  self_basic_info buf s = (s2, (KERN_SUCCESS, b, c)) ->
  thread_time buf s =
    Some (s2, mk_thread_time
                (seconds (user_time b) * 1000000 + microseconds (user_time b))
                (seconds (system_time b) * 1000000 + microseconds (system_time b))).
Proof.
  intros Hi Hq. pose proof (self_basic_info_success_normal s buf Hi) as Hn.
  rewrite Hq in Hn. destruct (Hn eq_refl) as (u & st & _ & Hu & Hst & Bu & Bst).
  simpl in Hu, Hst.
  rewrite thread_time_unfold, Hq. simpl.
  rewrite !time_value_to_us_typed by (rewrite ?Hu, ?Hst; auto with ctime).
  done.
Qed.

(** (C4) The sentinel is unambiguous on what [thread_time] returns: the
    result is a valid sample exactly when the kernel call succeeded, and
    a valid result is at most [ACCT_MAX] in each field. *)
Theorem thread_time_valid_iff_success buf s s' t : kinv s ->
  thread_time buf s = Some (s', t) ->
  (thread_time_valid t = true <-> (self_basic_info buf s).2.1.1 = KERN_SUCCESS) /\
  (thread_time_valid t = true ->
     user_time_us t <= ACCT_MAX /\ system_time_us t <= ACCT_MAX).
Proof.
  intros Hi. rewrite thread_time_encode by done. intros [= _ <-].
  pose proof (self_basic_info_spec s buf Hi) as Hs.
  destruct (thread_cpu_time s) as [[u st]|] eqn:Hc; simpl.
  - apply thread_cpu_time_bounds in Hc; [| done]. destruct Hs as [-> _].
    rewrite thread_time_valid_spec. simpl. lia.
  - unfold thread_time_valid. simpl. done.
Qed.

(** (C6) The difference of any two samples [thread_time] returns (each
    valid or the sentinel) is defined: no [int64_t] overflow, whatever
    the kernel states they were taken in. *)
Theorem thread_time_sub_samples_defined buf1 buf2 s1 s2 s1' s2' t1 t2 :
  kinv s1 -> kinv s2 -> thread_time buf1 s1 = Some (s1', t1) -> thread_time buf2 s2 = Some (s2', t2) ->
  thread_time_sub t2 t1 =
    Some (mk_thread_time (user_time_us t2 - user_time_us t1)
                         (system_time_us t2 - system_time_us t1)).
Proof.
  intros H1 H2. rewrite !thread_time_encode by done. intros [= _ <-] [= _ <-].
  apply sample_shape_sub; eapply sample_encode_shape; done.
Qed.
End SampleProperties.

(** ** Properties of [thread_time_sub] *)

(** (C7) The sentinel is not propagated by [thread_time_sub]: a failed
    "before" sample turns a valid "after" sample [a] into [a + 1] in each
    field, itself a valid sample, and two failed samples give [{0, 0}], the
    difference of an idle interval. Nothing in the result tells the caller
    that a sample failed. *)
Theorem thread_time_sub_sentinel_masked a :
  0 <= user_time_us a <= ACCT_MAX -> 0 <= system_time_us a <= ACCT_MAX ->
  thread_time_sub a thread_time_sentinel =
    Some (mk_thread_time (user_time_us a + 1) (system_time_us a + 1)) /\
  thread_time_valid (mk_thread_time (user_time_us a + 1) (system_time_us a + 1)) = true /\
  thread_time_sub thread_time_sentinel thread_time_sentinel = Some (mk_thread_time 0 0).
Proof.
  intros Hu Hs. pose proof ACCT_MAX_value.
  rewrite thread_time_sub_in by (simpl; cint_bounds; lia). simpl.
  split; [do 2 f_equal; lia |]. split; [| reflexivity].
  apply thread_time_valid_spec. simpl. lia.
Qed.

Lemma thread_time_sub_sentinel_masked_witness :
  thread_time_sub (mk_thread_time 4000 1500) thread_time_sentinel =
    Some (mk_thread_time 4001 1501) /\
  thread_time_valid (mk_thread_time 4001 1501) = true /\
  thread_time_sub thread_time_sentinel thread_time_sentinel = Some (mk_thread_time 0 0).
Proof.
  apply (thread_time_sub_sentinel_masked (mk_thread_time 4000 1500));
    simpl; rewrite ACCT_MAX_value; lia.
Defined.
