(* ===== verification/Api.v ===== *)
(** The interface include/thread_time.h gives its callers: the two
    prototypes of lines 11-12 as a class of operations
    [thread_time_h], what a caller may rely on as the class
    [thread_time_contract], the C implementation as an instance that
    discharges the contract under the kernel's laws: a sample returns a
    valid sample or the sentinel, and the difference of two such samples
    is defined and exact. *)

From S2P Require Import Prelude CInt Types TimeValue ThreadInfo ThreadTime.
Import CInt Types.

Local Open Scope Z_scope.
Local Open Scope cprog_scope.

(** [thread_time_t thread_time();] and
    [thread_time_t thread_time_sub(thread_time_t const a, thread_time_t const b);].
    The sample's argument is the stack contents its local buffer starts
    with (see [thread_time]). *)
Class thread_time_h (S : Type) := {
  h_thread_time : thread_basic_info_t -> cprog S thread_time_t;
  h_thread_time_sub : thread_time_t -> thread_time_t -> option thread_time_t
}.

(** What a caller may rely on, on the kernel states satisfying [kinv]: a
    sample always returns, keeps [kinv], and is a valid sample within
    [ACCT_MAX] or the sentinel; the difference of two such samples is
    defined and exact. *)
Class thread_time_contract (S : Type) `{thread_time_h S} (kinv : S -> Prop) : Prop := {
  h_thread_time_spec : forall buf s, kinv s ->
    exists s' t, h_thread_time buf s = Some (s', t) /\ kinv s' /\ sample_shape t;
  h_thread_time_sub_spec : forall a b, sample_shape a -> sample_shape b ->
    h_thread_time_sub a b =
      Some (mk_thread_time (user_time_us a - user_time_us b)
                           (system_time_us a - system_time_us b))
}.

#[export] Instance c_thread_time_h {S} `{ThreadInfoProvider S} : thread_time_h S := {
  h_thread_time := thread_time;
  h_thread_time_sub := thread_time_sub
}.

#[export] Instance c_thread_time_contract {S} `{ThreadInfoLaws S kinv} :
  thread_time_contract S kinv.
Proof.
  split.
  - intros buf s Hi. simpl. rewrite thread_time_encode by done. do 2 eexists.
    split; [done |]. split; [by apply self_basic_info_kinv | by eapply sample_encode_shape].
  - intros a b. simpl. apply sample_shape_sub.
Qed.
