(* ===== verification/MachKernel.v ===== *)
(** A concrete model of the Mach kernel services thread_time.c calls
    (not code of the repository; see the root file's header for what it
    follows of XNU), an instance of [ThreadInfoProvider] for it, the step
    relation of what the kernel does between two calls, and the kernel
    invariant [kinv] under which the instance satisfies [ThreadInfoLaws].

    The state keeps the thread table (each thread's accumulated user and
    system microseconds and whether it is alive), the running thread, and
    the task's IPC name space: a map from port name to the thread whose
    port the name denotes and the user references of the send right, with
    its reverse map from thread to name. *)

From S2P Require Import Prelude CInt Types TimeValue ThreadInfo.
Import Types.

Local Open Scope Z_scope.

Record thread_acct := mk_acct {
  acct_user : Z;
  acct_system : Z;
  acct_alive : bool
}.

Record kstate := mk_kstate {
  ks_threads : gmap nat thread_acct;
  ks_current : nat;
  ks_space : gmap Z (nat * Z);
  ks_rev : gmap nat Z;
  ks_next_name : Z
}.

Definition MACH_PORT_UREFS_MAX : Z := 65535.

Definition set_threads (s : kstate) (m : gmap nat thread_acct) : kstate :=
  mk_kstate m (ks_current s) (ks_space s) (ks_rev s) (ks_next_name s).

Definition set_current (s : kstate) (t : nat) : kstate :=
  mk_kstate (ks_threads s) t (ks_space s) (ks_rev s) (ks_next_name s).

(** [mach_thread_self()]: a send right to the running thread's port. If
    the space already names the port, the same name is returned with one
    more user reference (saturating); otherwise a fresh name is allocated
    with one reference. *)
Definition k_mach_thread_self (s : kstate) : kstate * Z :=
  let t := ks_current s in
  match ks_rev s !! t with
  | Some n =>
      match ks_space s !! n with
      | Some (t', ur) =>
          (mk_kstate (ks_threads s) t
             (<[n := (t', Z.min (ur + 1) MACH_PORT_UREFS_MAX)]> (ks_space s))
             (ks_rev s) (ks_next_name s), n)
      | None => (s, MACH_PORT_NULL)
      end
  | None =>
      let n := ks_next_name s in
      (mk_kstate (ks_threads s) t (<[n := (t, 1)]> (ks_space s))
         (<[t := n]> (ks_rev s)) (n + 1), n)
  end.

(** What [THREAD_BASIC_INFO] reports for an account; the fields the code
    does not read are zero. *)
Definition basic_info_of (a : thread_acct) : thread_basic_info_t :=
  mk_basic_info (time_value_of_us (acct_user a)) (time_value_of_us (acct_system a))
    0 0 0 0 0 0.

(** [thread_info(port, flavor, buf, &count)]: the state is unchanged; on
    an error the buffer and the count are left as they were. As in XNU, a
    terminated thread is refused with [KERN_TERMINATED] before the flavor
    and the count are looked at. *)
Definition k_thread_info (port : Z) (flavor : Z)
    (buf : thread_basic_info_t) (count : Z) (s : kstate) :
    kstate * (Z * thread_basic_info_t * Z) :=
  match ks_space s !! port with
  | None => (s, (MACH_SEND_INVALID_DEST, buf, count))
  | Some (t, _) =>
      match ks_threads s !! t with
      | Some a =>
          if negb (acct_alive a) then (s, (KERN_TERMINATED, buf, count))
          else if (flavor =? THREAD_BASIC_INFO) && (THREAD_BASIC_INFO_COUNT <=? count)
          then (s, (KERN_SUCCESS, basic_info_of a, THREAD_BASIC_INFO_COUNT))
          else (s, (KERN_INVALID_ARGUMENT, buf, count))
      | None => (s, (KERN_INVALID_ARGUMENT, buf, count))
      end
  end.

Definition k_thread_cpu_time (s : kstate) : option (Z * Z) :=
  match ks_threads s !! ks_current s with
  | Some a => if acct_alive a then Some (acct_user a, acct_system a) else None
  | None => None
  end.

#[export] Instance mach_provider : ThreadInfoProvider kstate := {
  mach_thread_self := k_mach_thread_self;
  thread_info := k_thread_info;
  thread_cpu_time := k_thread_cpu_time
}.

(** ** The invariant *)

Definition acct_ok (a : thread_acct) : bool :=
  (0 <=? acct_user a) && (acct_user a <=? ACCT_MAX) &&
  (0 <=? acct_system a) && (acct_system a <=? ACCT_MAX).

(** The reverse map's entry [t -> n] names an allocated send right for
    [t]'s port with a legal reference count. *)
Definition rev_ok (s : kstate) (t : nat) (n : Z) : bool :=
  (1 <=? n) && (n <? ks_next_name s) &&
  match ks_space s !! n with
  | Some (t', ur) => Nat.eqb t' t && (1 <=? ur) && (ur <=? MACH_PORT_UREFS_MAX)
  | None => false
  end.

Definition kinv (s : kstate) : bool :=
  forallb (fun kv => acct_ok kv.2) (map_to_list (ks_threads s)) &&
  forallb (fun kv => rev_ok s kv.1 kv.2) (map_to_list (ks_rev s)) &&
  (1 <=? ks_next_name s).

(** The running thread is alive. *)
Definition current_alive (s : kstate) : bool :=
  match ks_threads s !! ks_current s with
  | Some a => acct_alive a
  | None => false
  end.

(** The user references the task holds on thread [t]'s port. *)
Definition urefs_of (s : kstate) (t : nat) : Z :=
  match ks_rev s !! t with
  | Some n => match ks_space s !! n with Some (_, ur) => ur | None => 0 end
  | None => 0
  end.

(** ** What the kernel does between two calls *)

Inductive kstep : kstate -> kstate -> Prop :=
  | kstep_run_user s t a d :
      ks_threads s !! t = Some a -> acct_alive a = true ->
      0 <= d -> acct_user a + d <= ACCT_MAX ->
      kstep s (set_threads s (<[t := mk_acct (acct_user a + d) (acct_system a) true]>
                                (ks_threads s)))
  | kstep_run_system s t a d :
      ks_threads s !! t = Some a -> acct_alive a = true ->
      0 <= d -> acct_system a + d <= ACCT_MAX ->
      kstep s (set_threads s (<[t := mk_acct (acct_user a) (acct_system a + d) true]>
                                (ks_threads s)))
  | kstep_spawn s t :
      ks_threads s !! t = None ->
      kstep s (set_threads s (<[t := mk_acct 0 0 true]> (ks_threads s)))
  | kstep_exit s t a :
      t <> ks_current s -> ks_threads s !! t = Some a ->
      kstep s (set_threads s (<[t := mk_acct (acct_user a) (acct_system a) false]>
                                (ks_threads s)))
  | kstep_switch s t a :
      ks_threads s !! t = Some a -> acct_alive a = true ->
      kstep s (set_current s t).

Inductive kstar : kstate -> kstate -> Prop :=
  | kstar_refl s : kstar s s
  | kstar_step s1 s2 s3 : kstep s1 s2 -> kstar s2 s3 -> kstar s1 s3.

(** ** The invariant, as statements about lookups *)

Lemma acct_ok_spec a :
  acct_ok a = true <-> 0 <= acct_user a <= ACCT_MAX /\ 0 <= acct_system a <= ACCT_MAX.
Proof. unfold acct_ok. rewrite !andb_true_iff, !Z.leb_le. tauto. Qed.

Lemma rev_ok_spec s t n :
  rev_ok s t n = true <->
  1 <= n < ks_next_name s /\
  exists ur, ks_space s !! n = Some (t, ur) /\ 1 <= ur <= MACH_PORT_UREFS_MAX.
Proof.
  unfold rev_ok. rewrite !andb_true_iff, Z.leb_le, Z.ltb_lt.
  destruct (ks_space s !! n) as [[t' ur]|].
  - rewrite !andb_true_iff, Nat.eqb_eq, !Z.leb_le. naive_solver.
  - naive_solver.
Qed.

Lemma kinv_spec s :
  kinv s = true <->
  (forall t a, ks_threads s !! t = Some a -> acct_ok a = true) /\
  (forall t n, ks_rev s !! t = Some n -> rev_ok s t n = true) /\
  1 <= ks_next_name s.
Proof.
  unfold kinv. rewrite !andb_true_iff, Z.leb_le.
  rewrite (forallb_map_to_list_iff (fun _ a => acct_ok a)).
  rewrite (forallb_map_to_list_iff (rev_ok s)). tauto.
Qed.

(** [rev_ok] reads only the name space and the next name. *)
Lemma rev_ok_set_threads s m t n : rev_ok (set_threads s m) t n = rev_ok s t n.
Proof. reflexivity. Qed.

#[export] Hint Rewrite rev_ok_set_threads : ctime_run.

(** ** [mach_thread_self] *)

(** On an invariant state, [mach_thread_self] returns a name of the
    running thread's port, keeps the thread table and the running thread,
    and keeps the invariant. *)
Lemma k_mach_thread_self_spec s :
  kinv s = true ->
  let '(s1, n) := k_mach_thread_self s in
  (exists ur, ks_space s1 !! n = Some (ks_current s, ur)) /\
  ks_threads s1 = ks_threads s /\ ks_current s1 = ks_current s /\
  ks_rev s1 !! ks_current s = Some n /\
  urefs_of s1 (ks_current s) = Z.min (urefs_of s (ks_current s) + 1) MACH_PORT_UREFS_MAX /\
  kinv s1 = true.
Proof.
  intros Hi. pose proof Hi as (Ha & Hr & Hn)%kinv_spec.
  unfold k_mach_thread_self, urefs_of.
  destruct (ks_rev s !! ks_current s) as [n|] eqn:Ht.
  - pose proof (Hr _ _ Ht) as (Hb & ur & Hs & Hu)%rev_ok_spec. rewrite Hs. simpl.
    rewrite ?Ht, lookup_insert_eq. split; [eauto |]. do 3 (split; [done |]).
    split; [done |]. apply kinv_spec. simpl. split; [done |]. split; [| done].
    intros t' n' Ht'. apply rev_ok_spec. simpl.
    pose proof (Hr _ _ Ht') as (Hb' & ur' & Hs' & Hu')%rev_ok_spec.
    split; [done |]. rewrite lookup_insert.
    case_decide as E; [subst n'; simplify_eq | eauto].
    exists (Z.min (ur + 1) MACH_PORT_UREFS_MAX). split; [done | lia].
  - simpl. rewrite !lookup_insert_eq. split; [eauto |]. do 3 (split; [done |]).
    split; [unfold MACH_PORT_UREFS_MAX; lia |]. apply kinv_spec. simpl.
    split; [done |]. split; [| lia].
    intros t' n' Ht'. apply rev_ok_spec. simpl.
    rewrite lookup_insert in Ht'. case_decide as E.
    + simplify_eq. rewrite lookup_insert_eq. split; [lia |]. eexists; split; [done |].
      unfold MACH_PORT_UREFS_MAX; lia.
    + pose proof (Hr _ _ Ht') as (Hb' & ur' & Hs' & Hu')%rev_ok_spec.
      rewrite lookup_insert_ne by lia. split; [lia | eauto].
Qed.

(** ** [thread_info] on the caller's own port *)

Lemma k_self_basic_info s buf :
  kinv s = true ->
  let '(s2, (kr, b, c)) := self_basic_info buf s in
  (s2, kr, b) = ((k_mach_thread_self s).1,
     match ks_threads s !! ks_current s with
     | Some a => if acct_alive a then KERN_SUCCESS else KERN_TERMINATED
     | None => KERN_INVALID_ARGUMENT
     end,
     match ks_threads s !! ks_current s with
     | Some a => if acct_alive a then basic_info_of a else buf
     | None => buf
     end).
Proof.
  intros Hi. pose proof (k_mach_thread_self_spec s Hi) as Hself.
  unfold self_basic_info, k_thread_cpu_time. simpl.
  destruct (k_mach_thread_self s) as [s1 n].
  destruct Hself as ([ur Hn] & Hth & Hcur & _). simpl.
  unfold k_thread_info. rewrite Hn, Hth.
  destruct (ks_threads s !! ks_current s) as [a|]; [| done].
  by destruct (acct_alive a).
Qed.

#[export] Instance mach_laws : ThreadInfoLaws kstate (fun s => kinv s = true).
Proof.
  split.
  - intros s u st Hi. simpl. unfold k_thread_cpu_time.
    pose proof Hi as (Ha & _)%kinv_spec.
    destruct (ks_threads s !! ks_current s) as [a|] eqn:E; [| done].
    apply Ha, acct_ok_spec in E. destruct (acct_alive a); naive_solver.
  - intros s buf Hi. pose proof (k_self_basic_info s buf Hi) as Hq.
    destruct (self_basic_info buf s) as [s2 [[kr b] c]]. simpl.
    unfold k_thread_cpu_time in *.
    destruct (ks_threads s !! ks_current s) as [a|]; [| by simplify_eq].
    destruct (acct_alive a); by simplify_eq.
  - intros s buf Hi. pose proof (k_self_basic_info s buf Hi) as Hq.
    pose proof (k_mach_thread_self_spec s Hi) as Hself.
    destruct (self_basic_info buf s) as [s2 [[kr b] c]]. simplify_eq. simpl.
    destruct (k_mach_thread_self s). tauto.
Qed.

(** ** Kernel steps *)

Lemma acct_ok_insert (m : gmap nat thread_acct) k b :
  (forall t a, m !! t = Some a -> acct_ok a = true) -> acct_ok b = true ->
  forall t a, <[k := b]> m !! t = Some a -> acct_ok a = true.
Proof.
  intros Hm Hb t a Ht. rewrite lookup_insert in Ht. case_decide; simplify_eq; eauto.
Qed.

Lemma kstep_kinv s s' : kstep s s' -> kinv s = true -> kinv s' = true.
Proof.
  intros Hs (Ha & Hr & Hn)%kinv_spec. apply kinv_spec.
  destruct Hs as [s t a d Ht Hal Hd Hb|s t a d Ht Hal Hd Hb|s t Ht|s t a Hne Ht|s t a Ht Hal];
    simpl; (split; [| split; [exact Hr | done]]); try exact Ha;
    apply acct_ok_insert; try done; apply acct_ok_spec; simpl;
    try (apply Ha, acct_ok_spec in Ht); unfold ACCT_MAX, USEC_PER_SEC in *; cint_bounds; lia.
Qed.

Lemma kstep_current_alive s s' :
  kstep s s' -> current_alive s = true -> current_alive s' = true.
Proof.
  unfold current_alive. intros Hs Hc.
  destruct Hs as [s t a d Ht Hal Hd Hb|s t a d Ht Hal Hd Hb|s t Ht|s t a Hne Ht|s t a Ht Hal];
    simpl; rewrite ?lookup_insert; try case_decide; subst; simpl; try done.
  by rewrite Ht.
Qed.

(** No step takes CPU time away from a thread, and no thread leaves the
    table. *)
Lemma kstep_acct_mono s s' t a :
  kstep s s' -> ks_threads s !! t = Some a ->
  exists a', ks_threads s' !! t = Some a' /\
    acct_user a <= acct_user a' /\ acct_system a <= acct_system a'.
Proof.
  intros Hs Ht.
  destruct Hs as [s t0 a0 d H0 Hal Hd Hb|s t0 a0 d H0 Hal Hd Hb|s t0 H0|s t0 a0 Hne H0|s t0 a0 H0 Hal];
    simpl; rewrite ?lookup_insert; try case_decide; subst; simplify_eq; simpl;
    eexists; (split; [done | simpl; lia]).
Qed.

Lemma kstar_trans s1 s2 s3 : kstar s1 s2 -> kstar s2 s3 -> kstar s1 s3.
Proof. induction 1; eauto using kstar. Qed.

(** ** [mach_thread_self] and [thread_info] leave the accounting alone *)

Lemma self_basic_info_threads s buf :
  kinv s = true ->
  ks_threads (self_basic_info buf s).1 = ks_threads s /\
  ks_current (self_basic_info buf s).1 = ks_current s /\
  urefs_of (self_basic_info buf s).1 (ks_current s) =
    Z.min (urefs_of s (ks_current s) + 1) MACH_PORT_UREFS_MAX.
Proof.
  intros Hi. pose proof (k_self_basic_info s buf Hi) as Hq.
  pose proof (k_mach_thread_self_spec s Hi) as Hself.
  destruct (self_basic_info buf s) as [s2 [[kr b] c]]. simplify_eq. simpl.
  destruct (k_mach_thread_self s). tauto.
Qed.

(** [mach_thread_self] touches only the running thread's entry of the
    name space: two threads' ports never share a name. *)
Lemma k_mach_thread_self_frame s t :
  kinv s = true -> t <> ks_current s ->
  urefs_of (k_mach_thread_self s).1 t = urefs_of s t.
Proof.
  intros Hi Ht. pose proof Hi as (_ & Hr & Hn)%kinv_spec.
  unfold k_mach_thread_self, urefs_of.
  destruct (ks_rev s !! ks_current s) as [n|] eqn:Hc.
  - pose proof (Hr _ _ Hc) as (_ & ur & Hs & _)%rev_ok_spec. rewrite Hs. simpl.
    destruct (ks_rev s !! t) as [m|] eqn:Hm; [| done].
    pose proof (Hr _ _ Hm) as (_ & ur' & Hs' & _)%rev_ok_spec.
    rewrite lookup_insert_ne; [done |]. intros ->. congruence.
  - simpl. rewrite lookup_insert_ne by congruence.
    destruct (ks_rev s !! t) as [m|] eqn:Hm; [| done].
    pose proof (Hr _ _ Hm) as (Hb & _)%rev_ok_spec.
    rewrite lookup_insert_ne by lia. done.
Qed.

(** [thread_info] does not change the kernel state: the state after the
    code's query is the one [mach_thread_self] left. *)
Lemma self_basic_info_state s buf :
  (self_basic_info buf s).1 = (k_mach_thread_self s).1.
Proof.
  unfold self_basic_info. simpl. destruct (k_mach_thread_self s) as [s1 n]. simpl.
  unfold k_thread_info. by repeat case_match.
Qed.

(** The code's query on an invariant state with a live running thread:
    the port is a name of that thread's port, and [thread_info] on it with
    any flavor and count answers from the thread's account. *)
Lemma k_thread_info_self s f buf c :
  kinv s = true -> current_alive s = true ->
  (k_mach_thread_self s).2 <> MACH_PORT_NULL /\
  exists a, ks_threads s !! ks_current s = Some a /\
    (k_thread_info (k_mach_thread_self s).2 f buf c (k_mach_thread_self s).1).2 =
      if (f =? THREAD_BASIC_INFO) && (THREAD_BASIC_INFO_COUNT <=? c)
      then (KERN_SUCCESS, basic_info_of a, THREAD_BASIC_INFO_COUNT)
      else (KERN_INVALID_ARGUMENT, buf, c).
Proof.
  intros Hi Hc. pose proof (k_mach_thread_self_spec s Hi) as Hself.
  destruct (k_mach_thread_self s) as [s1 n]. simpl.
  destruct Hself as ([ur Hn] & Hth & Hcur & Hrev & _ & Hi1).
  apply kinv_spec in Hi1 as (_ & Hr & _).
  apply Hr, rev_ok_spec in Hrev as (Hb & _). unfold MACH_PORT_NULL.
  split; [lia |]. unfold current_alive in Hc.
  destruct (ks_threads s !! ks_current s) as [a|] eqn:Ha; [| done].
  exists a. split; [done |]. unfold k_thread_info. rewrite Hn, Hth, Ha, Hc. simpl.
  by destruct (_ && _).
Qed.
