(* ===== verification/KernelRuns.v ===== *)
(** Whole runs of the concrete kernel of [MachKernel] with the program's
    calls interleaved: what the kernel does between two calls ([kstep])
    and calls of [thread_time] by the running thread. The theorems here
    are about sequences of operations: the kernel invariant holds on every
    reachable state, a reachable kernel never makes [thread_time] fail,
    two samples by the same thread give a non-negative difference,
    every call leaves one more user reference on the thread's port and
    changes nothing else (a frame property), and the arguments the code
    passes to [thread_info] are accepted where a smaller count or another
    flavor would not be. The
    file ends with the concrete instances (witnesses) of the theorems of
    [ThreadTime] that depend on the kernel's laws. *)

From S2P Require Import Prelude CInt Types TimeValue ThreadInfo ThreadTime MachKernel.
Import CInt Types.

Local Open Scope Z_scope.

(** A task with one running thread that has used no CPU time yet and an
    empty name space. *)
Definition kinit : kstate := mk_kstate {[0%nat := mk_acct 0 0 true]} 0 ∅ ∅ 1.

(** One transition of the system: the kernel steps, or the running thread
    calls [thread_time] (with whatever its stack held in the buffer). *)
Inductive krun : kstate -> kstate -> Prop :=
  | krun_kernel s s' : kstep s s' -> krun s s'
  | krun_sample s s' buf t : thread_time buf s = Some (s', t) -> krun s s'.

Inductive kruns : kstate -> kstate -> Prop :=
  | kruns_refl s : kruns s s
  | kruns_step s1 s2 s3 : krun s1 s2 -> kruns s2 s3 -> kruns s1 s3.

Definition reachable (s : kstate) : Prop := kruns kinit s.

(** [n] calls of [thread_time] in a row, as in a loop that samples. *)
Fixpoint sample_n (n : nat) (buf : thread_basic_info_t) (s : kstate) : option kstate :=
  match n with
  | O => Some s
  | S n' =>
      match thread_time buf s with
      | Some (s', _) => sample_n n' buf s'
      | None => None
      end
  end.

(** Concrete states for the witnesses: a thread that has run 1.5 s in
    user mode and 250 us in the kernel, next to a terminated one; a task
    whose running thread is terminated; and a buffer of stack garbage. *)
Definition kdemo : kstate :=
  mk_kstate {[0%nat := mk_acct 1500000 250 true; 1%nat := mk_acct 42 42 false]} 0 ∅ ∅ 1.

Definition kdead : kstate := mk_kstate {[0%nat := mk_acct 7 7 false]} 0 ∅ ∅ 1.

Definition buf_garbage : thread_basic_info_t :=
  mk_basic_info (mk_time_value 123 (-456)) (mk_time_value (-1) 7777777) 1 2 3 4 5 6.

(** The run of the witness: sample, run 5 ms in user mode and 2 ms in the
    kernel, switch away to a new thread and back, sample again. *)
Definition demo_s1 : kstate := (self_basic_info buf_garbage kinit).1.
Definition demo_run1 : kstate :=
  set_threads demo_s1 (<[0%nat := mk_acct (0 + 5000) 0 true]> (ks_threads demo_s1)).
Definition demo_run2 : kstate :=
  set_threads demo_run1 (<[0%nat := mk_acct 5000 (0 + 2000) true]> (ks_threads demo_run1)).
Definition demo_spawn : kstate :=
  set_threads demo_run2 (<[1%nat := mk_acct 0 0 true]> (ks_threads demo_run2)).
Definition demo_away : kstate := set_current demo_spawn 1.
Definition demo_back : kstate := set_current demo_away 0.

(** ** Samples on the concrete kernel *)

Lemma kinv_kinit : kinv kinit = true /\ current_alive kinit = true.
Proof. split; reflexivity. Qed.

(** A sample of an alive running thread is its account, and the call
    changes neither the thread table nor the running thread. *)
Lemma k_thread_time s buf :
  kinv s = true -> current_alive s = true ->
  exists a, ks_threads s !! ks_current s = Some a /\
    acct_ok a = true /\
    thread_time buf s =
      Some ((self_basic_info buf s).1, mk_thread_time (acct_user a) (acct_system a)).
Proof.
  intros Hi Hc. rewrite (thread_time_encode (kinv := fun s => kinv s = true)) by done.
  unfold current_alive in Hc. simpl. unfold k_thread_cpu_time.
  destruct (ks_threads s !! ks_current s) as [a|] eqn:Ha; [| done].
  rewrite Hc. exists a. split; [done |]. split; [| done].
  apply kinv_spec in Hi as [Hacc _]. by apply (Hacc _ _ Ha).
Qed.

Lemma k_thread_time_state s buf s' t :
  kinv s = true -> thread_time buf s = Some (s', t) ->
  s' = (self_basic_info buf s).1 /\ kinv s' = true.
Proof.
  intros Hi. rewrite (thread_time_encode (kinv := fun s => kinv s = true)) by done.
  intros [= <- _]. split; [done |]. by apply (self_basic_info_kinv (kinv := fun s => kinv s = true)).
Qed.

Lemma krun_kinv s s' :
  krun s s' -> kinv s = true -> current_alive s = true ->
  kinv s' = true /\ current_alive s' = true /\ ks_current s' = ks_current s \/
  kinv s' = true /\ current_alive s' = true /\ kstep s s'.
Proof.
  intros [s0 s1 Hs | s0 s1 buf t Hs] Hi Hc.
  - right. split; [by eapply kstep_kinv |]. split; [by eapply kstep_current_alive | done].
  - left. destruct (k_thread_time_state _ _ _ _ Hi Hs) as [-> Hi'].
    destruct (self_basic_info_threads s0 buf Hi) as (Ht & Hcur & _).
    unfold current_alive in *. rewrite Ht, Hcur. tauto.
Qed.

Lemma kruns_kinv s s' :
  kruns s s' -> kinv s = true -> current_alive s = true ->
  kinv s' = true /\ current_alive s' = true.
Proof.
  induction 1 as [s | s1 s2 s3 Hr _ IH]; [done |]. intros Hi Hc.
  apply IH; destruct (krun_kinv _ _ Hr Hi Hc); tauto.
Qed.

(** Along a run, no thread loses CPU time. *)
Lemma kruns_acct_mono s s' t a :
  kruns s s' -> kinv s = true -> current_alive s = true ->
  ks_threads s !! t = Some a ->
  exists a', ks_threads s' !! t = Some a' /\
    acct_user a <= acct_user a' /\ acct_system a <= acct_system a'.
Proof.
  intros Hr. revert a. induction Hr as [s | s1 s2 s3 Hr _ IH]; intros a Hi Hc Ha.
  - exists a. split; [done | lia].
  - destruct (krun_kinv _ _ Hr Hi Hc) as [(Hi2 & Hc2 & _) | (Hi2 & Hc2 & Hs)].
    + destruct Hr as [s1 s2 Hs | s1 s2 buf t' Hs].
      * destruct (kstep_acct_mono _ _ _ _ Hs Ha) as (a1 & Ha1 & Hu1 & Hs1).
        destruct (IH a1 Hi2 Hc2 Ha1) as (a2 & ? & ? & ?). exists a2. split; [done | lia].
      * destruct (k_thread_time_state _ _ _ _ Hi Hs) as [-> _].
        destruct (self_basic_info_threads s1 buf Hi) as (Ht & _).
        apply IH; [done | done | by rewrite Ht].
    + destruct (kstep_acct_mono _ _ _ _ Hs Ha) as (a1 & Ha1 & Hu1 & Hs1).
      destruct (IH a1 Hi2 Hc2 Ha1) as (a2 & ? & ? & ?). exists a2. split; [done | lia].
Qed.

(** The invariant of every reachable state, for the proofs below. *)
Lemma reachable_inv s : reachable s -> kinv s = true /\ current_alive s = true.
Proof. intros Hr. by apply (kruns_kinv kinit s Hr). Qed.

(** ** Properties of runs *)

(** (C8) On a reachable kernel [thread_time] never takes the failure
    branch: it returns the running thread's accounting, a valid sample. *)
Theorem thread_time_never_fails s buf :
  reachable s ->
  exists a s' t, ks_threads s !! ks_current s = Some a /\
    thread_time buf s = Some (s', t) /\
    t = mk_thread_time (acct_user a) (acct_system a) /\
    thread_time_valid t = true.
Proof.
  intros [Hi Hc]%reachable_inv.
  destruct (k_thread_time s buf Hi Hc) as (a & Ha & Hok & Hrun).
  do 3 eexists. split; [exact Ha |]. split; [exact Hrun | split; [done |]].
  apply thread_time_valid_spec. apply acct_ok_spec in Hok. simpl. lia.
Qed.

Lemma thread_time_never_fails_witness :
  exists a s' t, ks_threads kinit !! ks_current kinit = Some a /\
    thread_time buf_garbage kinit = Some (s', t) /\
    t = mk_thread_time (acct_user a) (acct_system a) /\
    thread_time_valid t = true.
Proof. apply thread_time_never_fails. apply kruns_refl. Defined.

(** (C9) Monotonicity (spec.md section 8): a thread that samples, lets
    the system run (its own work, other threads, context switches, thread
    creation and termination, other samples), and samples again once it is
    running again, gets a defined, non-negative difference in both
    fields. *)
Theorem thread_time_monotone s1 s1' s2 s2' buf1 buf2 a b :
  reachable s1 ->
  thread_time buf1 s1 = Some (s1', a) ->
  kruns s1' s2 -> ks_current s2 = ks_current s1 ->
  thread_time buf2 s2 = Some (s2', b) ->
  exists d, thread_time_sub b a = Some d /\ thread_time_valid d = true.
Proof.
  intros [Hi Hc]%reachable_inv Ha Hr Hcur Hb.
  destruct (k_thread_time s1 buf1 Hi Hc) as (x & Hx & Hxok & Hrun1).
  destruct (k_thread_time_state _ _ _ _ Hi Ha) as [-> Hi1].
  destruct (self_basic_info_threads s1 buf1 Hi) as (Hth & Hcur1 & _).
  assert (Hc1 : current_alive (self_basic_info buf1 s1).1 = true)
    by (unfold current_alive in *; by rewrite Hth, Hcur1).
  destruct (kruns_kinv _ _ Hr Hi1 Hc1) as [Hi2 Hc2].
  destruct (kruns_acct_mono _ _ (ks_current s1) x Hr Hi1 Hc1) as (y & Hy & Hu & Hs);
    [by rewrite Hth |].
  destruct (k_thread_time s2 buf2 Hi2 Hc2) as (y' & Hy' & Hyok & Hrun2).
  rewrite Hcur, Hy in Hy'. injection Hy' as <-.
  rewrite Hrun1 in Ha. rewrite Hrun2 in Hb. simplify_eq.
  apply acct_ok_spec in Hxok, Hyok.
  eexists. rewrite thread_time_sub_in by (simpl; pose proof ACCT_MAX_value; cint_bounds; lia).
  split; [done |]. apply thread_time_valid_spec. simpl. lia.
Qed.

Lemma thread_time_monotone_witness :
  exists d, thread_time_sub (mk_thread_time 5000 2000) (mk_thread_time 0 0) = Some d /\
    thread_time_valid d = true.
Proof.
  apply (thread_time_monotone kinit demo_s1 demo_back (self_basic_info buf_garbage demo_back).1
           buf_garbage buf_garbage).
  - apply kruns_refl.
  - vm_compute. reflexivity.
  - eapply kruns_step; [apply krun_kernel; eapply (kstep_run_user _ 0%nat (mk_acct 0 0 true) 5000);
      [vm_compute; reflexivity | reflexivity | lia | rewrite ACCT_MAX_value; simpl; lia] |].
    eapply kruns_step; [apply krun_kernel; eapply (kstep_run_system _ 0%nat (mk_acct 5000 0 true) 2000);
      [vm_compute; reflexivity | reflexivity | lia | rewrite ACCT_MAX_value; simpl; lia] |].
    eapply kruns_step; [apply krun_kernel; apply (kstep_spawn _ 1%nat); vm_compute; reflexivity |].
    eapply kruns_step; [apply krun_kernel; apply (kstep_switch _ 1%nat (mk_acct 0 0 true));
      [vm_compute; reflexivity | reflexivity] |].
    eapply kruns_step; [apply krun_kernel; apply (kstep_switch _ 0%nat (mk_acct 5000 2000 true));
      [vm_compute; reflexivity | reflexivity] |].
    apply kruns_refl.
  - reflexivity.
  - vm_compute. reflexivity.
Defined.

Lemma sample_n_urefs n buf s :
  kinv s = true -> current_alive s = true ->
  exists s', sample_n n buf s = Some s' /\ ks_current s' = ks_current s /\
    urefs_of s' (ks_current s) =
      Z.min (urefs_of s (ks_current s) + Z.of_nat n) MACH_PORT_UREFS_MAX.
Proof.
  revert s. induction n as [|n IH]; intros s Hi Hc.
  - exists s. split; [done |]. split; [done |]. simpl.
    apply kinv_spec in Hi as (_ & Hr & _). unfold urefs_of.
    destruct (ks_rev s !! ks_current s) as [m|] eqn:Hm; [| unfold MACH_PORT_UREFS_MAX; lia].
    apply Hr, rev_ok_spec in Hm as (_ & ur & -> & Hu). lia.
  - destruct (k_thread_time s buf Hi Hc) as (a & _ & _ & Hrun). simpl. rewrite Hrun.
    destruct (self_basic_info_threads s buf Hi) as (Ht & Hcur & Hu).
    destruct (k_thread_time_state _ _ _ _ Hi Hrun) as [_ Hi1].
    destruct (IH (self_basic_info buf s).1) as (s' & Hs' & Hcur' & Hu'); [done | |].
    { unfold current_alive in *. by rewrite Ht, Hcur. }
    exists s'. split; [done |]. rewrite Hcur in Hcur', Hu'. split; [done |].
    rewrite Hu', Hu. lia.
Qed.

(** (C10) [thread_time] never releases the send right [mach_thread_self]
    gives it: [n] samples in a row leave the task holding [n] more user
    references on the thread's port (until the count saturates at
    [MACH_PORT_UREFS_MAX]). The code calls [mach_thread_self()] on line 13
    and no [mach_port_deallocate] anywhere. *)
Theorem thread_time_leaks_port_urefs n buf s :
  reachable s ->
  exists s', sample_n n buf s = Some s' /\
    urefs_of s' (ks_current s) =
      Z.min (urefs_of s (ks_current s) + Z.of_nat n) MACH_PORT_UREFS_MAX.
Proof.
  intros [Hi Hc]%reachable_inv.
  destruct (sample_n_urefs n buf s Hi Hc) as (s' & ? & _ & ?). eauto.
Qed.

Lemma thread_time_leaks_port_urefs_witness :
  exists s', sample_n 3 buf_garbage kinit = Some s' /\
    urefs_of s' (ks_current kinit) = 3.
Proof.
  destruct (thread_time_leaks_port_urefs 3 buf_garbage kinit (kruns_refl kinit))
    as (s' & Hs & Hu).
  exists s'. split; [exact Hs |]. rewrite Hu. reflexivity.
Defined.

(** (C18) Frame: a call of [thread_time] on a reachable kernel changes no
    thread's CPU accounting and not the running thread, and of the task's
    port references it changes only those of the calling thread's own
    port; [thread_info] itself changes nothing. *)
Theorem thread_time_frame s buf s' r :
  reachable s -> thread_time buf s = Some (s', r) ->
  s' = (k_mach_thread_self s).1 /\
  ks_threads s' = ks_threads s /\ ks_current s' = ks_current s /\
  forall t, t <> ks_current s -> urefs_of s' t = urefs_of s t.
Proof.
  intros [Hi _]%reachable_inv Hr.
  destruct (k_thread_time_state _ _ _ _ Hi Hr) as [-> _].
  destruct (self_basic_info_threads s buf Hi) as (Ht & Hc & _).
  rewrite self_basic_info_state in *. do 3 (split; [done |]).
  intros t Hne. by apply k_mach_thread_self_frame.
Qed.

(** The second sample of the witness is taken by a new thread: the first
    thread's reference is left as it was. *)
Definition demo_two : kstate :=
  set_current (set_threads demo_s1 (<[1%nat := mk_acct 0 0 true]> (ks_threads demo_s1))) 1.

Lemma thread_time_frame_witness :
  (self_basic_info buf_garbage demo_two).1 = (k_mach_thread_self demo_two).1 /\
  ks_threads (self_basic_info buf_garbage demo_two).1 = ks_threads demo_two /\
  ks_current (self_basic_info buf_garbage demo_two).1 = ks_current demo_two /\
  forall t, t <> ks_current demo_two ->
    urefs_of (self_basic_info buf_garbage demo_two).1 t = urefs_of demo_two t.
Proof.
  apply (thread_time_frame demo_two buf_garbage _ (mk_thread_time 0 0)).
  - apply (kruns_step _ demo_s1);
      [apply (krun_sample _ _ buf_garbage (mk_thread_time 0 0)); vm_compute; reflexivity |].
    eapply kruns_step; [apply krun_kernel, (kstep_spawn _ 1%nat); vm_compute; reflexivity |].
    eapply kruns_step; [apply krun_kernel, (kstep_switch _ 1%nat (mk_acct 0 0 true));
      [vm_compute; reflexivity | reflexivity] |].
    apply kruns_refl.
  - vm_compute. reflexivity.
Defined.

(** (C20) The arguments of thread_time.c:12-13 are the ones the kernel
    accepts: on a reachable kernel the port [mach_thread_self] returns is
    never [MACH_PORT_NULL] and the code's query succeeds; the same query
    with any count below [THREAD_BASIC_INFO_COUNT], or with another
    flavor, would fail with [KERN_INVALID_ARGUMENT] and leave the buffer
    and the count as they were (so the code would return the sentinel,
    never read the uninitialised buffer). *)
Theorem self_basic_info_arguments s buf c f :
  reachable s ->
  (k_mach_thread_self s).2 <> MACH_PORT_NULL /\
  (self_basic_info buf s).2.1.1 = KERN_SUCCESS /\
  (c < THREAD_BASIC_INFO_COUNT ->
     (k_thread_info (k_mach_thread_self s).2 THREAD_BASIC_INFO buf c
        (k_mach_thread_self s).1).2 = (KERN_INVALID_ARGUMENT, buf, c)) /\
  (f <> THREAD_BASIC_INFO ->
     (k_thread_info (k_mach_thread_self s).2 f buf THREAD_BASIC_INFO_COUNT
        (k_mach_thread_self s).1).2 = (KERN_INVALID_ARGUMENT, buf, THREAD_BASIC_INFO_COUNT)).
Proof.
  intros [Hi Hc]%reachable_inv.
  assert (Hq : forall f' c', exists a,
    (k_thread_info (k_mach_thread_self s).2 f' buf c' (k_mach_thread_self s).1).2 =
      if (f' =? THREAD_BASIC_INFO) && (THREAD_BASIC_INFO_COUNT <=? c')
      then (KERN_SUCCESS, basic_info_of a, THREAD_BASIC_INFO_COUNT)
      else (KERN_INVALID_ARGUMENT, buf, c'))
    by (intros f' c'; destruct (k_thread_info_self s f' buf c' Hi Hc) as (_ & a & _ & ?); eauto).
  split; [by destruct (k_thread_info_self s f buf c Hi Hc) |].
  split; [| split].
  - assert (Hs : (self_basic_info buf s).2 = (k_thread_info (k_mach_thread_self s).2
        THREAD_BASIC_INFO buf THREAD_BASIC_INFO_COUNT (k_mach_thread_self s).1).2)
      by (unfold self_basic_info; simpl; by destruct (k_mach_thread_self s)).
    rewrite Hs. by destruct (Hq THREAD_BASIC_INFO THREAD_BASIC_INFO_COUNT) as [a ->].
  - intros Hlt. destruct (Hq THREAD_BASIC_INFO c) as [a ->].
    by rewrite (proj2 (Z.leb_gt _ _) Hlt), andb_false_r.
  - intros Hne. destruct (Hq f THREAD_BASIC_INFO_COUNT) as [a ->].
    by rewrite (proj2 (Z.eqb_neq _ _) Hne).
Qed.

Lemma self_basic_info_arguments_witness :
  (k_mach_thread_self kinit).2 <> MACH_PORT_NULL /\
  (self_basic_info buf_garbage kinit).2.1.1 = KERN_SUCCESS /\
  (9 < THREAD_BASIC_INFO_COUNT ->
     (k_thread_info (k_mach_thread_self kinit).2 THREAD_BASIC_INFO buf_garbage 9
        (k_mach_thread_self kinit).1).2 = (KERN_INVALID_ARGUMENT, buf_garbage, 9)) /\
  (5 <> THREAD_BASIC_INFO ->
     (k_thread_info (k_mach_thread_self kinit).2 5 buf_garbage THREAD_BASIC_INFO_COUNT
        (k_mach_thread_self kinit).1).2 =
       (KERN_INVALID_ARGUMENT, buf_garbage, THREAD_BASIC_INFO_COUNT)).
Proof. apply self_basic_info_arguments. apply kruns_refl. Defined.

(** A kernel whose running thread is terminated: the query fails, the
    buffer keeps the stack garbage (non-normalised time values), and the
    code returns the sentinel without undefined behaviour. *)
Lemma thread_time_typed_buffer_defined_witness :
  thread_time buf_garbage kdead =
    Some ((k_mach_thread_self kdead).1,
          if (KERN_TERMINATED =? KERN_SUCCESS)
          then mk_thread_time (tv_total (user_time buf_garbage)) (tv_total (system_time buf_garbage))
          else thread_time_sentinel).
Proof.
  apply (thread_time_typed_buffer_defined buf_garbage kdead _ _ _ THREAD_BASIC_INFO_COUNT);
    vm_compute; reflexivity.
Defined.

(** ** The interface-level theorems of [ThreadTime] on concrete kernels *)

Lemma thread_time_refines_witness :
  kinv kdemo = true /\
  exists s' t, thread_time buf_garbage kdemo = Some (s', t) /\
    t = sample_encode (thread_cpu_time kdemo) /\
    sample_decode t = thread_cpu_time kdemo.
Proof.
  split; [reflexivity |].
  apply (thread_time_refines (kinv := fun s => kinv s = true)). reflexivity.
Defined.

Lemma thread_time_success_witness :
  thread_time buf_garbage kdemo =
    Some ((k_mach_thread_self kdemo).1,
          mk_thread_time
            (seconds (user_time (basic_info_of (mk_acct 1500000 250 true))) * 1000000 +
             microseconds (user_time (basic_info_of (mk_acct 1500000 250 true))))
            (seconds (system_time (basic_info_of (mk_acct 1500000 250 true))) * 1000000 +
             microseconds (system_time (basic_info_of (mk_acct 1500000 250 true))))).
Proof.
  apply (thread_time_success (kinv := fun s => kinv s = true) buf_garbage kdemo _ _
           THREAD_BASIC_INFO_COUNT).
  - reflexivity.
  - vm_compute. reflexivity.
Defined.

Lemma thread_time_failure_witness :
  thread_time buf_garbage kdead =
    Some ((k_mach_thread_self kdead).1, mk_thread_time (-1) (-1)).
Proof.
  apply (thread_time_failure buf_garbage kdead _ KERN_TERMINATED buf_garbage
           THREAD_BASIC_INFO_COUNT).
  - vm_compute. reflexivity.
  - discriminate.
Defined.

Lemma thread_time_valid_iff_success_witness :
  (thread_time_valid (mk_thread_time 1500000 250) = true <->
     (self_basic_info buf_garbage kdemo).2.1.1 = KERN_SUCCESS) /\
  (thread_time_valid (mk_thread_time 1500000 250) = true ->
     user_time_us (mk_thread_time 1500000 250) <= ACCT_MAX /\
     system_time_us (mk_thread_time 1500000 250) <= ACCT_MAX).
Proof.
  apply (thread_time_valid_iff_success (kinv := fun s => kinv s = true) buf_garbage kdemo
           (k_mach_thread_self kdemo).1).
  - reflexivity.
  - vm_compute. reflexivity.
Defined.

Lemma thread_time_sub_samples_defined_witness :
  thread_time_sub (mk_thread_time 1500000 250) (mk_thread_time (-1) (-1)) =
    Some (mk_thread_time (1500000 - -1) (250 - -1)).
Proof.
  apply (thread_time_sub_samples_defined (kinv := fun s => kinv s = true)
           buf_garbage buf_garbage kdead kdemo
           (k_mach_thread_self kdead).1 (k_mach_thread_self kdemo).1);
    reflexivity || (vm_compute; reflexivity).
Defined.
