(* ===== verification/Accounting.v ===== *)
(** Runs of the concrete kernel as lists of labelled transitions, with an
    executable step function [kexec] proved sound and complete against the
    relation [krun] of [KernelRuns]; what a run charges to a thread; and
    the theorems that relate two samples of [thread_time] to the CPU time
    the kernel charged between them, and a new thread's first sample to
    the time charged since its creation. *)

From S2P Require Import Prelude CInt Types TimeValue ThreadInfo ThreadTime MachKernel KernelRuns.
Import CInt Types.

Local Open Scope Z_scope.

(** One transition, named: what the kernel does ([kstep]'s rules) or a
    sample by the running thread. *)
Inductive klabel :=
  | LRunUser (t : nat) (d : Z)
  | LRunSystem (t : nat) (d : Z)
  | LSpawn (t : nat)
  | LExit (t : nat)
  | LSwitch (t : nat)
  | LSample (buf : thread_basic_info_t).

(** The transition a label names, or [None] where its guard fails. *)
Definition kexec (l : klabel) (s : kstate) : option kstate :=
  match l with
  | LRunUser t d =>
      match ks_threads s !! t with
      | Some a =>
          if acct_alive a && (0 <=? d) && (acct_user a + d <=? ACCT_MAX)
          then Some (set_threads s (<[t := mk_acct (acct_user a + d) (acct_system a) true]>
                                      (ks_threads s)))
          else None
      | None => None
      end
  | LRunSystem t d =>
      match ks_threads s !! t with
      | Some a =>
          if acct_alive a && (0 <=? d) && (acct_system a + d <=? ACCT_MAX)
          then Some (set_threads s (<[t := mk_acct (acct_user a) (acct_system a + d) true]>
                                      (ks_threads s)))
          else None
      | None => None
      end
  | LSpawn t =>
      match ks_threads s !! t with
      | Some _ => None
      | None => Some (set_threads s (<[t := mk_acct 0 0 true]> (ks_threads s)))
      end
  | LExit t =>
      if Nat.eqb t (ks_current s) then None
      else match ks_threads s !! t with
           | Some a => Some (set_threads s (<[t := mk_acct (acct_user a) (acct_system a) false]>
                                              (ks_threads s)))
           | None => None
           end
  | LSwitch t =>
      match ks_threads s !! t with
      | Some a => if acct_alive a then Some (set_current s t) else None
      | None => None
      end
  | LSample buf =>
      match thread_time buf s with
      | Some (s', _) => Some s'
      | None => None
      end
  end.

Fixpoint kexec_list (ls : list klabel) (s : kstate) : option kstate :=
  match ls with
  | [] => Some s
  | l :: ls' => s' ← kexec l s; kexec_list ls' s'
  end.

(** The user and system time a run charges to thread [t]. *)
Fixpoint charged_user (t : nat) (ls : list klabel) : Z :=
  match ls with
  | [] => 0
  | LRunUser t' d :: ls' => (if Nat.eqb t' t then d else 0) + charged_user t ls'
  | _ :: ls' => charged_user t ls'
  end.

Fixpoint charged_system (t : nat) (ls : list klabel) : Z :=
  match ls with
  | [] => 0
  | LRunSystem t' d :: ls' => (if Nat.eqb t' t then d else 0) + charged_system t ls'
  | _ :: ls' => charged_system t ls'
  end.

(** ** [kexec] against [krun] *)

Lemma kexec_sound l s s' : kexec l s = Some s' -> krun s s'.
Proof.
  destruct l as [t d|t d|t|t|t|buf]; simpl.
  - destruct (ks_threads s !! t) as [a|] eqn:Ha; [| done].
    destruct (acct_alive a) eqn:Hal, (0 <=? d) eqn:Hd, (acct_user a + d <=? ACCT_MAX) eqn:Hb;
      simpl; intros; simplify_eq.
    apply krun_kernel, kstep_run_user; [done | done | lia | lia].
  - destruct (ks_threads s !! t) as [a|] eqn:Ha; [| done].
    destruct (acct_alive a) eqn:Hal, (0 <=? d) eqn:Hd, (acct_system a + d <=? ACCT_MAX) eqn:Hb;
      simpl; intros; simplify_eq.
    apply krun_kernel, kstep_run_system; [done | done | lia | lia].
  - destruct (ks_threads s !! t) eqn:Ha; intros; simplify_eq. by apply krun_kernel, kstep_spawn.
  - destruct (Nat.eqb_spec t (ks_current s)); [done |].
    destruct (ks_threads s !! t) eqn:Ha; intros; simplify_eq. by eapply krun_kernel, kstep_exit.
  - destruct (ks_threads s !! t) as [a|] eqn:Ha; [| done].
    destruct (acct_alive a) eqn:Hal; intros; simplify_eq. by eapply krun_kernel, kstep_switch.
  - destruct (thread_time buf s) as [[s1 t]|] eqn:Hr; intros; simplify_eq.
    by eapply krun_sample.
Qed.

Lemma kexec_complete s s' : krun s s' -> exists l, kexec l s = Some s'.
Proof.
  intros [s0 s1 Hs | s0 s1 buf t Hs].
  - destruct Hs as [? t a d Ht Hal Hd Hb|? t a d Ht Hal Hd Hb|? t Ht|? t a Hne Ht|? t a Ht Hal].
    + exists (LRunUser t d). simpl. rewrite Ht, Hal.
      by rewrite (proj2 (Z.leb_le 0 d)), (proj2 (Z.leb_le _ ACCT_MAX)).
    + exists (LRunSystem t d). simpl. rewrite Ht, Hal.
      by rewrite (proj2 (Z.leb_le 0 d)), (proj2 (Z.leb_le _ ACCT_MAX)).
    + exists (LSpawn t). simpl. by rewrite Ht.
    + exists (LExit t). simpl. by rewrite (proj2 (Nat.eqb_neq _ _) Hne), Ht.
    + exists (LSwitch t). simpl. by rewrite Ht, Hal.
  - exists (LSample buf). simpl. by rewrite Hs.
Qed.

Lemma kexec_list_kruns ls s s' : kexec_list ls s = Some s' -> kruns s s'.
Proof.
  revert s. induction ls as [|l ls IH]; simpl; intros s H.
  - simplify_eq. apply kruns_refl.
  - apply bind_Some in H as (s1 & H1 & H2).
    eapply kruns_step; [by eapply kexec_sound | by apply IH].
Qed.

(** ** What a run charges *)

(** One transition adds to thread [t]'s account exactly what its label
    charges to [t]; in particular no transition takes time away and no
    transition removes the thread. *)
Lemma kexec_acct l s s' t a :
  kinv s = true -> kexec l s = Some s' -> ks_threads s !! t = Some a ->
  exists a', ks_threads s' !! t = Some a' /\
    acct_user a' = acct_user a + charged_user t [l] /\
    acct_system a' = acct_system a + charged_system t [l].
Proof.
  intros Hi. destruct l as [t0 d|t0 d|t0|t0|t0|buf]; simpl.
  - destruct (ks_threads s !! t0) as [a0|] eqn:H0; [| done].
    case_match; intros; simplify_eq. simpl. rewrite lookup_insert.
    destruct (Nat.eqb_spec t0 t); case_decide; subst; simplify_eq; try done;
      eexists; (split; [done | simpl; lia]).
  - destruct (ks_threads s !! t0) as [a0|] eqn:H0; [| done].
    case_match; intros; simplify_eq. simpl. rewrite lookup_insert.
    destruct (Nat.eqb_spec t0 t); case_decide; subst; simplify_eq; try done;
      eexists; (split; [done | simpl; lia]).
  - destruct (ks_threads s !! t0) eqn:H0; intros; simplify_eq. simpl. rewrite lookup_insert.
    case_decide; subst; simplify_eq. eexists; (split; [done | lia]).
  - case_match; [done |]. destruct (ks_threads s !! t0) eqn:H0; intros; simplify_eq.
    simpl. rewrite lookup_insert.
    case_decide; subst; simplify_eq; eexists; (split; [done | simpl; lia]).
  - destruct (ks_threads s !! t0) as [a0|]; [| done].
    case_match; intros; simplify_eq. simpl. eexists; (split; [done | lia]).
  - destruct (thread_time buf s) as [[s1 r]|] eqn:Hr; intros; simplify_eq.
    destruct (k_thread_time_state _ _ _ _ Hi Hr) as [-> _].
    destruct (self_basic_info_threads s buf Hi) as (Ht & _).
    rewrite Ht. eexists; (split; [done | lia]).
Qed.

Lemma kexec_kinv l s s' : kinv s = true -> kexec l s = Some s' -> kinv s' = true.
Proof.
  intros Hi Hl. destruct (kexec_sound _ _ _ Hl) as [s0 s1 Hs | s0 s1 buf t Hs].
  - by eapply kstep_kinv.
  - by destruct (k_thread_time_state _ _ _ _ Hi Hs).
Qed.

Lemma kexec_list_acct ls s s' t a :
  kinv s = true -> kexec_list ls s = Some s' -> ks_threads s !! t = Some a ->
  exists a', ks_threads s' !! t = Some a' /\
    acct_user a' = acct_user a + charged_user t ls /\
    acct_system a' = acct_system a + charged_system t ls.
Proof.
  revert s a. induction ls as [|l ls IH]; simpl; intros s a Hi H Ha.
  - simplify_eq. exists a. split; [done | lia].
  - apply bind_Some in H as (s1 & H1 & H2).
    destruct (kexec_acct _ _ _ _ _ Hi H1 Ha) as (a1 & Ha1 & Hu1 & Hs1).
    destruct (IH _ _ (kexec_kinv _ _ _ Hi H1) H2 Ha1) as (a2 & Ha2 & Hu2 & Hs2).
    exists a2. split; [done |]. simpl in Hu1, Hs1.
    destruct l; simpl; try case_match; lia.
Qed.

(** The two samples of a thread around a run, as accounts. *)
Lemma samples_around_run s1 s1' s2 s2' buf1 buf2 a b ls :
  reachable s1 ->
  thread_time buf1 s1 = Some (s1', a) -> kexec_list ls s1' = Some s2 ->
  ks_current s2 = ks_current s1 -> thread_time buf2 s2 = Some (s2', b) ->
  exists x y, ks_threads s1 !! ks_current s1 = Some x /\ acct_ok x = true /\ acct_ok y = true /\
    a = mk_thread_time (acct_user x) (acct_system x) /\
    b = mk_thread_time (acct_user y) (acct_system y) /\
    acct_user y = acct_user x + charged_user (ks_current s1) ls /\
    acct_system y = acct_system x + charged_system (ks_current s1) ls.
Proof.
  intros [Hi Hc]%reachable_inv Ha Hl Hcur Hb.
  destruct (k_thread_time s1 buf1 Hi Hc) as (x & Hx & Hxok & Hrun1).
  destruct (k_thread_time_state _ _ _ _ Hi Ha) as [-> Hi1].
  destruct (self_basic_info_threads s1 buf1 Hi) as (Hth & Hcur1 & _).
  assert (Hc1 : current_alive (self_basic_info buf1 s1).1 = true)
    by (unfold current_alive in *; by rewrite Hth, Hcur1).
  destruct (kruns_kinv _ _ (kexec_list_kruns _ _ _ Hl) Hi1 Hc1) as [Hi2 Hc2].
  destruct (kexec_list_acct _ _ _ (ks_current s1) x Hi1 Hl) as (y & Hy & Hu & Hs);
    [by rewrite Hth |].
  destruct (k_thread_time s2 buf2 Hi2 Hc2) as (y' & Hy' & Hyok & Hrun2).
  rewrite Hcur, Hy in Hy'. injection Hy' as <-.
  rewrite Hrun1 in Ha. rewrite Hrun2 in Hb. simplify_eq.
  exists x, y. done.
Qed.

(** The difference of two samples of accounts is exact. *)
Lemma thread_time_sub_accts x y :
  acct_ok x = true -> acct_ok y = true ->
  thread_time_sub (mk_thread_time (acct_user y) (acct_system y))
                  (mk_thread_time (acct_user x) (acct_system x)) =
    Some (mk_thread_time (acct_user y - acct_user x) (acct_system y - acct_system x)).
Proof.
  intros Hx%acct_ok_spec Hy%acct_ok_spec. pose proof ACCT_MAX_value.
  apply thread_time_sub_in; simpl; cint_bounds; lia.
Qed.

(** A sample of an account passes the sentinel check. *)
Lemma acct_ok_valid x :
  acct_ok x = true -> thread_time_valid (mk_thread_time (acct_user x) (acct_system x)) = true.
Proof. intros Hx%acct_ok_spec. apply thread_time_valid_spec. simpl. lia. Qed.

(** ** Properties *)

(** (C14) Exact accounting: when a thread samples, the system runs
    (whatever the labels: its own user and kernel time, other threads,
    creations, terminations, switches, other samples), and the thread
    samples again, the difference [thread_time_sub] computes is exactly the
    user and system time the kernel charged to that thread in between. *)
Theorem thread_time_sub_charged s1 s1' s2 s2' buf1 buf2 a b ls :
  reachable s1 ->
  thread_time buf1 s1 = Some (s1', a) -> kexec_list ls s1' = Some s2 ->
  ks_current s2 = ks_current s1 -> thread_time buf2 s2 = Some (s2', b) ->
  thread_time_sub b a =
    Some (mk_thread_time (charged_user (ks_current s1) ls)
                         (charged_system (ks_current s1) ls)).
Proof.
  intros Hr Ha Hl Hcur Hb.
  destruct (samples_around_run _ _ _ _ _ _ _ _ _ Hr Ha Hl Hcur Hb)
    as (x & y & _ & Hx & Hy & -> & -> & Hu & Hs).
  rewrite thread_time_sub_accts by done. f_equal. f_equal; lia.
Qed.

(** The run of the witness: 5 ms of user time, a new thread that runs
    7 ms of its own, 2 ms of kernel time, a switch away and back. *)
Definition demo_labels : list klabel :=
  [LRunUser 0 5000; LSpawn 1; LSwitch 1; LRunUser 1 7000; LSwitch 0; LRunSystem 0 2000;
   LSample buf_garbage].

Lemma thread_time_sub_charged_witness :
  thread_time_sub (mk_thread_time 5000 2000) (mk_thread_time 0 0) =
    Some (mk_thread_time (charged_user 0 demo_labels) (charged_system 0 demo_labels)).
Proof.
  apply (thread_time_sub_charged kinit demo_s1
           (match kexec_list demo_labels demo_s1 with Some s => s | None => kinit end)
           (match kexec_list demo_labels demo_s1 with Some s => (self_basic_info buf_garbage s).1
                                                     | None => kinit end)
           buf_garbage buf_garbage).
  - apply kruns_refl.
  - vm_compute. reflexivity.
  - vm_compute. reflexivity.
  - vm_compute. reflexivity.
  - vm_compute. reflexivity.
Defined.

(** (C15) Liveness of the measurement: after any sample, every amount of
    user and system time the accounting can still hold is observable: there
    is a run of the kernel after which the thread's next sample differs
    from the first by exactly that amount (a run of [kexec] labels, the
    thread's own user and kernel time). The model's monotonicity is not
    vacuous. *)
Theorem thread_time_any_charge_observable s1 s1' buf a du ds :
  reachable s1 -> thread_time buf s1 = Some (s1', a) ->
  0 <= du -> 0 <= ds ->
  user_time_us a + du <= ACCT_MAX -> system_time_us a + ds <= ACCT_MAX ->
  exists ls s2 s2' b, kexec_list ls s1' = Some s2 /\ thread_time buf s2 = Some (s2', b) /\
    thread_time_sub b a = Some (mk_thread_time du ds).
Proof.
  intros Hr Ha Hdu Hds Hbu Hbs. pose proof Hr as [Hi Hc]%reachable_inv.
  destruct (k_thread_time s1 buf Hi Hc) as (x & Hx & Hxok & Hrun1).
  destruct (k_thread_time_state _ _ _ _ Hi Ha) as [-> Hi1].
  destruct (self_basic_info_threads s1 buf Hi) as (Hth & Hcur1 & _).
  rewrite Hrun1 in Ha. simplify_eq. simpl in Hbu, Hbs.
  set (s1' := (self_basic_info buf s1).1) in *.
  set (t := ks_current s1).
  assert (Hx' : ks_threads s1' !! t = Some x) by (by rewrite Hth).
  assert (Hal : acct_alive x = true).
  { unfold current_alive in Hc. by rewrite Hx in Hc. }
  set (ls := [LRunUser t du; LRunSystem t ds]).
  assert (Hl : exists s2, kexec_list ls s1' = Some s2 /\ ks_current s2 = t).
  { simpl. rewrite Hx', Hal, (proj2 (Z.leb_le 0 du)), (proj2 (Z.leb_le _ ACCT_MAX)) by lia.
    simpl. rewrite lookup_insert_eq.
    rewrite (proj2 (Z.leb_le 0 ds)), (proj2 (Z.leb_le _ ACCT_MAX)) by (simpl; lia).
    simpl. eexists. split; [done |]. unfold set_threads. simpl. exact Hcur1. }
  destruct Hl as (s2 & Hl & Hcur2).
  pose proof (kruns_kinv _ _ (kexec_list_kruns _ _ _ Hl) Hi1) as [Hi2 Hc2].
  { unfold current_alive. by rewrite Hcur1, Hth. }
  destruct (k_thread_time s2 buf Hi2 Hc2) as (y & _ & _ & Hrun2).
  exists ls, s2. do 2 eexists. split; [exact Hl |]. split; [exact Hrun2 |].
  destruct (samples_around_run _ _ _ _ _ _ _ _ ls Hr Hrun1 Hl Hcur2 Hrun2)
    as (x' & y' & Hx2 & Hxok' & Hyok' & Ha' & Hb' & Hu & Hs).
  rewrite Hb'. rewrite Hx in Hx2. injection Hx2 as <-.
  rewrite thread_time_sub_accts by done. rewrite Hu, Hs. subst t ls. simpl. rewrite Nat.eqb_refl. f_equal. f_equal; lia.
Qed.

Lemma thread_time_any_charge_observable_witness :
  exists ls s2 s2' b, kexec_list ls demo_s1 = Some s2 /\ thread_time buf_garbage s2 = Some (s2', b) /\
    thread_time_sub b (mk_thread_time 0 0) = Some (mk_thread_time 1000000 250).
Proof.
  apply (thread_time_any_charge_observable kinit demo_s1 buf_garbage);
    [apply kruns_refl | vm_compute; reflexivity | lia | lia | rewrite ACCT_MAX_value; simpl; lia
    | rewrite ACCT_MAX_value; simpl; lia].
Defined.

(** (C19) A new thread's first sample (spec.md section 8, "a freshly
    created thread that performs negligible work"): when a thread is
    created, the system runs, and the new thread samples once it is
    running, the sample is exactly the user and system time charged to it
    since its creation; its clock starts at [{0, 0}]. *)
Theorem thread_time_fresh_thread s t ls s2 s2' buf b :
  reachable s -> kexec_list (LSpawn t :: ls) s = Some s2 -> ks_current s2 = t ->
  thread_time buf s2 = Some (s2', b) ->
  b = mk_thread_time (charged_user t ls) (charged_system t ls).
Proof.
  intros Hr Hl Hcur Hb. pose proof Hr as [Hi Hc]%reachable_inv.
  destruct (kruns_kinv _ _ (kexec_list_kruns _ _ _ Hl) Hi Hc) as [Hi2 Hc2].
  simpl kexec_list in Hl. apply bind_Some in Hl as (s1 & H1 & H2).
  assert (Ht : ks_threads s1 !! t = Some (mk_acct 0 0 true)).
  { simpl in H1. destruct (ks_threads s !! t); simplify_eq. apply lookup_insert_eq. }
  destruct (kexec_list_acct _ _ _ t _ (kexec_kinv (LSpawn t) _ _ Hi H1) H2 Ht) as (a & Ha & Hu & Hs).
  destruct (k_thread_time s2 buf Hi2 Hc2) as (a' & Ha' & _ & Hrun).
  rewrite Hcur, Ha in Ha'. injection Ha' as <-.
  rewrite Hrun in Hb. injection Hb as _ <-. rewrite Hu, Hs. done.
Qed.

(** Thread 1 is created while thread 0 runs 100 us, then runs 7 ms in
    user mode and 300 us in the kernel before sampling. *)
Definition fresh_labels : list klabel :=
  [LRunUser 0 100; LSwitch 1; LRunUser 1 7000; LRunSystem 1 300].

Lemma thread_time_fresh_thread_witness :
  mk_thread_time 7000 300 = mk_thread_time (charged_user 1 fresh_labels) (charged_system 1 fresh_labels).
Proof.
  apply (thread_time_fresh_thread kinit 1 fresh_labels
           (match kexec_list (LSpawn 1 :: fresh_labels) kinit with Some s => s | None => kinit end)
           (match kexec_list (LSpawn 1 :: fresh_labels) kinit with
            | Some s => (self_basic_info buf_garbage s).1 | None => kinit end)
           buf_garbage).
  - apply kruns_refl.
  - vm_compute. reflexivity.
  - vm_compute. reflexivity.
  - vm_compute. reflexivity.
Defined.
