(* ===== verification/ResultApi.v ===== *)
(** The sample the spec recommends in place of the sentinel (spec.md
    sections 4.1, 7 and 9): a failure is a distinguishable [None]. It is
    built from the same kernel query as [thread_time] and proved equivalent
    to the C sample followed by the sentinel check [sample_check], so a
    caller may switch to it without changing any value on which the C code
    is meaningful. *)

From S2P Require Import Prelude CInt Types TimeValue ThreadInfo ThreadTime MachKernel KernelRuns.
Import CInt Types.

Local Open Scope Z_scope.
Local Open Scope cprog_scope.

Section Checked.
Context {S : Type} `{ThreadInfoProvider S}.

(** The sample with an explicit failure: the query of thread_time.c:13 and
    the conversions of lines 16-17, returning [None] where line 20 returns
    the sentinel. *)
Definition thread_time_checked (basic_info : thread_basic_info_t) :
    cprog S (option thread_time_t) :=
  r <-- ccall (self_basic_info basic_info) ;;
  let '(result, info, _) := r in
  if (result =? KERN_SUCCESS)%Z then
    u <-- cpure (time_value_to_us (user_time info)) ;;
    st <-- cpure (time_value_to_us (system_time info)) ;;
    cret (Some (mk_thread_time u st))
  else cret None.
End Checked.

(** The check a caller of the C interface must make (spec.md section 3). *)
Definition sample_check (t : thread_time_t) : option thread_time_t :=
  if thread_time_valid t then Some t else None.

(** ** Running the checked sample *)

Section CheckedRun.
Context {S : Type} `{ThreadInfoProvider S} {kinv : S -> Prop} `{!ThreadInfoLaws S kinv}.

Lemma thread_time_checked_encode buf s : kinv s ->
  thread_time_checked buf s =
  Some ((self_basic_info buf s).1,
        (fun '(u, st) => mk_thread_time u st) <$> thread_cpu_time s).
Proof.
  intros Hi. unfold thread_time_checked. ctime_simpl.
  destruct (self_basic_info buf s) as [s2 [[kr b] c]] eqn:Hq. simpl.
  destruct (Z.eqb_spec kr KERN_SUCCESS) as [Hk | Hk].
  - pose proof (self_basic_info_success_normal s buf Hi) as Hn.
    rewrite Hq in Hn. simpl in Hn.
    destruct (Hn Hk) as (u & st & -> & -> & -> & Hu & Hst).
    by rewrite !time_value_to_us_of_us.
  - pose proof (self_basic_info_failure s buf Hi) as Hf.
    rewrite Hq in Hf. by rewrite Hf.
Qed.

(** A sample of the laws' accounting passes the sentinel check exactly
    when it is not the sentinel. *)
Lemma sample_check_encode s : kinv s ->
  sample_check (sample_encode (thread_cpu_time s)) =
  (fun '(u, st) => mk_thread_time u st) <$> thread_cpu_time s.
Proof.
  intros Hi. unfold sample_check, thread_time_valid.
  destruct (thread_cpu_time s) as [[u st]|] eqn:Hc; [| done].
  apply thread_cpu_time_bounds in Hc as [Hu Hst]; [| done]. simpl.
  by rewrite (proj2 (Z.leb_le 0 u)), (proj2 (Z.leb_le 0 st)) by lia.
Qed.
End CheckedRun.

(** ** Properties *)

Section CheckedProperties.
Context {S : Type} `{ThreadInfoProvider S} {kinv : S -> Prop} `{!ThreadInfoLaws S kinv}.

(** (C16) Equivalence of the two interfaces: on every kernel state
    satisfying the laws, the checked sample is the C sample followed by the
    sentinel check, in the same kernel state. [None] is returned exactly
    where [thread_time] returns [{-1, -1}], and the same value otherwise. *)
Theorem thread_time_checked_equiv buf s : kinv s ->
  thread_time_checked buf s =
    (fun r => (r.1, sample_check r.2)) <$> thread_time buf s.
Proof.
  intros Hi. rewrite thread_time_checked_encode, thread_time_encode by done.
  simpl. by rewrite sample_check_encode.
Qed.

End CheckedProperties.

(** ** On the concrete kernel *)

Lemma thread_time_checked_equiv_witness :
  thread_time_checked buf_garbage kdead =
    (fun r => (r.1, sample_check r.2)) <$> thread_time buf_garbage kdead.
Proof.
  apply (thread_time_checked_equiv (kinv := fun s => kinv s = true)). reflexivity.
Defined.
