(* ===== verification/Interleaving.v ===== *)
(** The order of samples taken by different threads: a sample by a
    given thread (the kernel switches to it, it calls [thread_time]), two
    threads sampling one after the other, and the theorem that the two
    orders commute: each thread gets its own account either way, and both
    orders leave the same accounting and port references. *)

From S2P Require Import Prelude CInt Types TimeValue ThreadInfo ThreadTime MachKernel KernelRuns Accounting.
Import CInt Types.

Local Open Scope Z_scope.

(** A sample by thread [t]: the kernel switches to [t], which calls
    [thread_time]. *)
Definition sample_on (t : nat) (buf : thread_basic_info_t) (s : kstate) :
    option (kstate * thread_time_t) :=
  s1 ← kexec (LSwitch t) s; thread_time buf s1.

(** Thread [t1] samples, then thread [t2]. *)
Definition samples_in_order (t1 t2 : nat) (buf1 buf2 : thread_basic_info_t) (s : kstate) :
    option (kstate * (thread_time_t * thread_time_t)) :=
  '(s1, a) ← sample_on t1 buf1 s;
  '(s2, b) ← sample_on t2 buf2 s1;
  Some (s2, (a, b)).

(** ** A sample by a given thread *)

Lemma sample_on_spec s t buf a :
  kinv s = true -> ks_threads s !! t = Some a -> acct_alive a = true ->
  exists s', sample_on t buf s = Some (s', mk_thread_time (acct_user a) (acct_system a)) /\
    kinv s' = true /\ ks_threads s' = ks_threads s /\ ks_current s' = t /\
    forall t', urefs_of s' t' =
      if decide (t' = t) then Z.min (urefs_of s t + 1) MACH_PORT_UREFS_MAX else urefs_of s t'.
Proof.
  intros Hi Ha Hal. unfold sample_on. simpl. rewrite Ha, Hal. simpl.
  assert (Hc1 : current_alive (set_current s t) = true) by (unfold current_alive; simpl; by rewrite Ha).
  destruct (k_thread_time (set_current s t) buf Hi Hc1) as (a' & Ha' & _ & Hrun).
  simpl in Ha'. rewrite Ha in Ha'. injection Ha' as <-. rewrite Hrun. eexists. split; [done |].
  destruct (self_basic_info_threads (set_current s t) buf Hi) as (Ht & Hc & Hu).
  split; [by apply (self_basic_info_kinv (kinv := fun s => kinv s = true)) |].
  do 2 (split; [done |]). intros t'. case_decide; [by subst |].
  rewrite self_basic_info_state. by apply (k_mach_thread_self_frame (set_current s t)).
Qed.

(** ** Properties *)

(** (C21) Samples by two threads commute: whether thread [t1] samples
    before thread [t2] or after it, each gets the same value (its own
    account), and the two orders leave the same thread table and the same
    port references for every thread; only the names chosen for new ports
    may differ. *)
Theorem samples_commute s t1 t2 buf1 buf2 a1 a2 :
  kinv s = true ->
  ks_threads s !! t1 = Some a1 -> acct_alive a1 = true ->
  ks_threads s !! t2 = Some a2 -> acct_alive a2 = true ->
  exists s12 s21,
    samples_in_order t1 t2 buf1 buf2 s =
      Some (s12, (mk_thread_time (acct_user a1) (acct_system a1),
                  mk_thread_time (acct_user a2) (acct_system a2))) /\
    samples_in_order t2 t1 buf2 buf1 s =
      Some (s21, (mk_thread_time (acct_user a2) (acct_system a2),
                  mk_thread_time (acct_user a1) (acct_system a1))) /\
    ks_threads s12 = ks_threads s21 /\ forall t, urefs_of s12 t = urefs_of s21 t.
Proof.
  intros Hi H1 Hal1 H2 Hal2.
  destruct (sample_on_spec s t1 buf1 a1 Hi H1 Hal1) as (s1 & E1 & Hi1 & Ht1 & _ & Hu1).
  destruct (sample_on_spec s1 t2 buf2 a2 Hi1 ltac:(by rewrite Ht1) Hal2)
    as (s12 & E12 & _ & Ht12 & _ & Hu12).
  destruct (sample_on_spec s t2 buf2 a2 Hi H2 Hal2) as (s2 & E2 & Hi2 & Ht2 & _ & Hu2).
  destruct (sample_on_spec s2 t1 buf1 a1 Hi2 ltac:(by rewrite Ht2) Hal1)
    as (s21 & E21 & _ & Ht21 & _ & Hu21).
  exists s12, s21. unfold samples_in_order. rewrite E1, E2. simpl. rewrite E12, E21. simpl.
  do 2 (split; [done |]). split; [congruence |].
  intros t. rewrite Hu12, Hu21, !Hu1, !Hu2. repeat case_decide; subst; done || lia.
Qed.

(** Two running threads with different accounts. *)
Definition ktwo : kstate :=
  mk_kstate {[0%nat := mk_acct 1500000 250 true; 1%nat := mk_acct 42 7 true]} 0 ∅ ∅ 1.

Lemma samples_commute_witness :
  exists s12 s21,
    samples_in_order 0 1 buf_garbage buf_garbage ktwo =
      Some (s12, (mk_thread_time 1500000 250, mk_thread_time 42 7)) /\
    samples_in_order 1 0 buf_garbage buf_garbage ktwo =
      Some (s21, (mk_thread_time 42 7, mk_thread_time 1500000 250)) /\
    ks_threads s12 = ks_threads s21 /\ forall t, urefs_of s12 t = urefs_of s21 t.
Proof.
  apply (samples_commute ktwo 0 1 buf_garbage buf_garbage
           (mk_acct 1500000 250 true) (mk_acct 42 7 true));
    vm_compute; reflexivity.
Defined.
